(** * vscode-elixir-credo: [src/utilities.ts]

    A shallow embedding of the helper functions of the Credo extension
    ([findUp], [getProjectFolder], [getCredoConfigFilePath],
    [getCommandArguments], [getCommandEnvironment]) and the properties the
    specification states about them.

    Paths are strings, as in the source.  The functions of Node's [path]
    module and of the editor host are the fields of two interfaces
    ([PathModule], [Host]); a POSIX implementation of the first one is given
    so that every function can be run on concrete inputs. *)

From Stdlib Require Import Ascii String List Arith Lia Bool.
From stdpp Require Import base decidable option list strings gmap.
Import ListNotations.

Local Open Scope string_scope.
Local Open Scope list_scope.
Local Open Scope nat_scope.

(** ** Strings as the source uses them *)

Module Js.

(** [a + b] on strings. *)
Definition cat (a b : string) : string := String.append a b.

Definition chars (s : string) : list ascii := list_ascii_of_string s.
Definition of_chars (l : list ascii) : string := string_of_list_ascii l.

(** A value of type [string | undefined] (or [string | null]) is an
    [option string]; it is truthy when it is a non-empty string. *)
Definition truthy (v : option string) : bool :=
  match v with
  | Some s => negb (bool_decide (s = ""))
  | None => false
  end.

(** [a || b] where [b] is a string. *)
Definition or_string (a : option string) (b : string) : string :=
  match a with
  | Some s => if bool_decide (s = "") then b else s
  | None => b
  end.

(** [a || b] where [b] may be undefined too. *)
Definition or_else (a b : option string) : option string :=
  if truthy a then a else b.

(** [`${v}`] for a [string | undefined]. *)
Definition template (v : option string) : string :=
  match v with
  | Some s => s
  | None => "undefined"
  end.

(** [Array.prototype.join]. *)
Fixpoint join_with (glue : string) (l : list string) : string :=
  match l with
  | [] => ""
  | [x] => x
  | x :: rest => cat x (cat glue (join_with glue rest))
  end.

Fixpoint starts_with (pat s : list ascii) : bool :=
  match pat, s with
  | [], _ => true
  | _ :: _, [] => false
  | a :: pat', b :: s' => bool_decide (a = b) && starts_with pat' s'
  end.

(** [s.replace(pat, '')] with a string pattern: the leftmost occurrence
    of [pat] is removed, the rest of [s] is kept. *)
Fixpoint remove_first_chars (pat s : list ascii) : list ascii :=
  if starts_with pat s then drop (length pat) s
  else match s with
       | [] => []
       | c :: s' => c :: remove_first_chars pat s'
       end.

Definition remove_first (pat s : string) : string :=
  of_chars (remove_first_chars (chars pat) (chars s)).

End Js.

(** ** The [path] module *)

(** The functions of [node:path] that the source calls. *)
Class PathModule := {
  sep : string;
  delimiter : string;
  join : list string -> string;
  dirname : string -> string;
  isAbsolute : string -> bool
}.

(** Facts of Node's implementations (POSIX and Windows) that the proofs
    rely on: the empty string is not an absolute path, the parent of a path
    is never the empty string, and taking the parent repeatedly never comes
    back to a path other than a fixed point ([/] or [.]). *)
Class PathLaws (P : PathModule) : Prop := {
  isAbsolute_empty : isAbsolute "" = false;
  dirname_nonempty : forall p : string, dirname p <> "";
  dirname_no_cycle :
    forall (p : string) (n : nat), Nat.iter (S n) dirname p = p -> dirname p = p
}.

(** [path.posix], on character lists. *)
Module Posix.

Definition slash : ascii := "/"%char.
Definition dot : ascii := "."%char.

Definition is_slash (c : ascii) : bool := bool_decide (c = slash).

Fixpoint drop_while (f : ascii -> bool) (l : list ascii) : list ascii :=
  match l with
  | [] => []
  | c :: l' => if f c then drop_while f l' else l
  end.

(** [dirname]: the scan runs from the last character down to index 1,
    skips the trailing separators, then the last component, and cuts at
    the separator before it. *)
Definition dirname_chars (path : list ascii) : list ascii :=
  match path with
  | [] => [dot]
  | c0 :: rest =>
      let hasRoot := is_slash c0 in
      let scan :=
        drop_while (fun c => negb (is_slash c)) (drop_while is_slash (rev rest)) in
      match scan with
      | [] => if hasRoot then [slash] else [dot]
      | _ :: before =>
          match before with
          | [] => if hasRoot then [slash; slash] else [c0]
          | _ :: _ => c0 :: rev before
          end
      end
  end.

Definition dirname (path : string) : string :=
  Js.of_chars (dirname_chars (Js.chars path)).

Definition isAbsolute (path : string) : bool :=
  match path with
  | EmptyString => false
  | String c _ => is_slash c
  end.

(** The segments between separators, in order. *)
Fixpoint segments (cur : list ascii) (p : list ascii) : list (list ascii) :=
  match p with
  | [] => [rev cur]
  | c :: p' =>
      if is_slash c then rev cur :: segments [] p' else segments (c :: cur) p'
  end.

(** One segment of [normalizeString]; [stack] holds the kept segments,
    last one first. *)
Definition normalize_step (allowAboveRoot : bool)
    (stack : list (list ascii)) (seg : list ascii) : list (list ascii) :=
  if bool_decide (seg = []) || bool_decide (seg = [dot]) then stack
  else if bool_decide (seg = [dot; dot]) then
    match stack with
    | top :: below =>
        if bool_decide (top = [dot; dot])
        then (if allowAboveRoot then seg :: stack else stack)
        else below
    | [] => if allowAboveRoot then [seg] else []
    end
  else seg :: stack.

Fixpoint glue (l : list (list ascii)) : list ascii :=
  match l with
  | [] => []
  | [x] => x
  | x :: rest => x ++ slash :: glue rest
  end.

Definition normalizeString (path : list ascii) (allowAboveRoot : bool) : list ascii :=
  glue (rev (fold_left (normalize_step allowAboveRoot) (segments [] path) [])).

Definition normalize_chars (path : list ascii) : list ascii :=
  match path with
  | [] => [dot]
  | c0 :: _ =>
      let isAbs := is_slash c0 in
      let trailingSeparator :=
        match rev path with
        | c :: _ => is_slash c
        | [] => false
        end in
      let body := normalizeString path (negb isAbs) in
      match body with
      | [] =>
          if isAbs then [slash]
          else if trailingSeparator then [dot; slash] else [dot]
      | _ :: _ =>
          let body' := if trailingSeparator then body ++ [slash] else body in
          if isAbs then slash :: body' else body'
      end
  end.

(** [join]: the non-empty arguments glued with [/], then normalized. *)
Definition join (args : list string) : string :=
  match filter (fun a => a <> "") args with
  | [] => "."
  | parts => Js.of_chars (normalize_chars (Js.chars (Js.join_with "/" parts)))
  end.

(** A measure on paths that [dirname] decreases, except at its fixed
    points [/] and [.]. *)
Definition weight (l : list ascii) : nat :=
  match l with
  | [] => 3
  | [c] => if bool_decide (c = slash) || bool_decide (c = dot) then 2 else 3
  | _ :: _ :: _ => 2 * length l + 1
  end.

End Posix.

Definition posix : PathModule := {|
  sep := "/";
  delimiter := ":";
  join := Posix.join;
  dirname := Posix.dirname;
  isAbsolute := Posix.isAbsolute
|}.

(** ** The editor host *)

Record Uri := { scheme : string; fsPath : string }.

(** [vscode.WorkspaceFolder]; only its [uri] is read. *)
Record WorkspaceFolder := { uri : Uri }.

(** Modelled from the spec: the severity levels of the logger ([./logger]
    is not among the sources).  The specification names the warning level,
    the only one [utilities.ts] passes to [log]. *)
Inductive LogLevel := Warning.

(** The [diffMode] setting of the configuration below. *)
Record DiffMode := { enabled : bool; mergeBase : option string }.

(** Modelled from the spec: the Configuration of section 3, the object
    returned by [getCurrentConfiguration()] ([./configuration] is not among
    the sources), with the fields that [utilities.ts] reads: configuration
    file name or path, configuration profile name, tags to include, tags to
    exclude, strict-mode flag, diff-mode flag with its optional merge-base
    name.  An optional string may be undefined or empty. *)
Record CredoConfiguration := {
  configurationFile : option string;
  credoConfiguration : option string;
  checksWithTag : list string;
  checksWithoutTag : list string;
  strictMode : bool;
  diffMode : DiffMode
}.

(** What the functions read from their surroundings: the file system, the
    workspace folders, the extension's configuration, the process
    environment and the [elixir.credo.executePath] setting. *)
Class Host := {
  fs_exists : string -> bool;
  workspaceFolderOf : Uri -> option WorkspaceFolder;
  getCurrentConfiguration : CredoConfiguration;
  process_env : gmap string string;
  conf_executePath : option string
}.

(** ** Calls to the surroundings, recorded *)

Inductive event :=
| EvExists (path : string)            (* fs.existsSync(path) *)
| EvWorkspace (u : Uri)               (* vscode.workspace.getWorkspaceFolder(u) *)
| EvLog (level : LogLevel) (message : string).

(** A run either returns a value together with the calls it made, in
    order, or does not return within the allowed recursion depth. *)
Definition Run (A : Type) : Type := option (A * list event).

Definition ret {A} (a : A) : Run A := Some (a, []).

Definition bind {A B} (m : Run A) (k : A -> Run B) : Run B :=
  match m with
  | None => None
  | Some (a, t) =>
      match k a with
      | None => None
      | Some (b, t') => Some (b, t ++ t')
      end
  end.

Definition no_return {A} : Run A := None.

Declare Scope run_scope.
Delimit Scope run_scope with run.
Notation "'call' x <- m 'in' k" := (bind m (fun x => k))
  (at level 10, x name, m at level 100, k at level 200) : run_scope.
Notation "'exec' m 'in' k" := (bind m (fun _ => k))
  (at level 10, m at level 100, k at level 200) : run_scope.
Local Open Scope run_scope.

(** The value a run returns, if it returns. *)
Definition result {A} (r : Run A) : option A := fst <$> r.

Definition is_log (e : event) : bool :=
  match e with EvLog _ _ => true | _ => false end.

(** ** [utilities.ts] *)

Definition DefaultConfigFile : string := ".credo.exs".
Definition DefaultCommand : string := "credo".
Definition DiffCommand : string := "diff".
Definition DefaultCommandArguments : list string :=
  ["--format"; "json"; "--read-from-stdin"].

Record GetConfigOpts := { silent : option bool }.

Section Utilities.
Context {P : PathModule} {H : Host}.

Definition isFileUri (u : Uri) : bool := bool_decide (scheme u = "file").

Definition existsSync (path : string) : Run bool :=
  Some (fs_exists path, [EvExists path]).

Definition getWorkspaceFolder (u : Uri) : Run (option WorkspaceFolder) :=
  Some (workspaceFolderOf u, [EvWorkspace u]).

Definition log (level : LogLevel) (message : string) : Run unit :=
  Some (tt, [EvLog level message]).

(** [findUp(name, { startAt, stopAt })]; [fuel] bounds the depth of the
    recursion. *)
Fixpoint findUp (fuel : nat) (name : string) (dir : string)
    (stopAt : option string) : Run (option string) :=
  match fuel with
  | O => no_return
  | S fuel' =>
      let filePath := join [dir; name] in
      call found <- existsSync filePath in
      if found then ret (Some dir)
      else if bool_decide (Some dir = stopAt) then ret None
      else findUp fuel' name (dirname dir) stopAt
  end.

Definition inMixProject (fuel : nat) (documentUri : Uri) : Run bool :=
  call workspace <- getWorkspaceFolder documentUri in
  match workspace with
  | None => ret false
  | Some w =>
      call mixProjectPath <-
        findUp fuel "mix.exs" (dirname (fsPath documentUri)) (Some (fsPath (uri w))) in
      ret (Js.truthy mixProjectPath)
  end.

Definition getProjectFolder (fuel : nat) (documentUri : Uri) : Run string :=
  let documentPath := fsPath documentUri in
  call workspace <- getWorkspaceFolder documentUri in
  call mixProjectPath <-
    match workspace with
    | Some w =>
        findUp fuel ".credo.exs" (dirname (fsPath documentUri)) (Some (fsPath (uri w)))
    | None => ret None
    end in
  ret (Js.or_string
         (Js.or_else mixProjectPath (fsPath <$> (uri <$> workspace)))
         (dirname documentPath)).

(** [candidates.filter(fs.existsSync)]: every candidate is probed, in
    order. *)
Fixpoint filterExisting (candidates : list string) : Run (list string) :=
  match candidates with
  | [] => ret []
  | c :: rest =>
      call b <- existsSync c in
      call kept <- filterExisting rest in
      ret (if b then c :: kept else kept)
  end.

Definition configCandidates (projectFolder configurationFile : string) : list string :=
  [join [projectFolder; configurationFile];
   join [projectFolder; "config"; configurationFile]].

Definition notFoundMessage (configurationFile : string) : string :=
  Js.cat configurationFile " file does not exist. Ignoring...".

Definition multipleMessage (found : list string) : string :=
  Js.cat "Found multiple files ("
    (Js.cat (Js.join_with ", " found)
       (Js.cat "). I will use " (Js.template (head found)))).

(** [const { silent = false } = opts ?? {}]. *)
Definition silentOption (opts : option GetConfigOpts) : bool :=
  default false (opts ≫= silent).

(** [extensionConfig.configurationFile || DefaultConfigFile]. *)
Definition configuredFile : string :=
  Js.or_string (configurationFile getCurrentConfiguration) DefaultConfigFile.

Definition getCredoConfigFilePath (fuel : nat) (documentUri : option Uri)
    (opts : option GetConfigOpts) : Run (option string) :=
  let silent := silentOption opts in
  let configurationFile := configuredFile in
  call override <-
    (if isAbsolute configurationFile then existsSync configurationFile else ret false) in
  if override then ret (Some configurationFile)
  else
    call projectFolder <-
      match documentUri with
      | Some u => call folder <- getProjectFolder fuel u in ret (Some folder)
      | None => ret None
      end in
    call projectFolder <-
      match documentUri with
      | Some u =>
          if negb (Js.truthy projectFolder)
          then call w <- getWorkspaceFolder u in ret (fsPath <$> (uri <$> w))
          else ret projectFolder
      | None => ret projectFolder
      end in
    call found <-
      (if Js.truthy projectFolder
       then filterExisting
              (configCandidates (Js.template projectFolder) configurationFile)
       else ret []) in
    match found with
    | [] =>
        exec (if negb silent then log Warning (notFoundMessage configurationFile)
         else ret tt) in
        ret None
    | first :: _ =>
        exec (if (1 <? length found) && negb silent
         then log Warning (multipleMessage found)
         else ret tt) in
        ret (Some (Js.remove_first
                     (Js.cat (Js.template projectFolder) sep) first))
    end.

(** The absolute override is taken when the configured name is an
    absolute path and the file exists. *)
Definition overrideExists : bool :=
  isAbsolute configuredFile && fs_exists configuredFile.

(** The existence check made for the override: none unless the configured
    name is absolute. *)
Definition overrideProbe : list event :=
  if isAbsolute configuredFile then [EvExists configuredFile] else [].

(** The warnings logged for a list of existing candidates. *)
Definition warnings (opts : option GetConfigOpts) (found : list string) : list event :=
  match found with
  | [] =>
      if silentOption opts then []
      else [EvLog Warning (notFoundMessage configuredFile)]
  | _ :: _ =>
      if (1 <? length found) && negb (silentOption opts)
      then [EvLog Warning (multipleMessage found)] else []
  end.

(** [commandArguments.push(...items)]. *)
Definition push (commandArguments items : list string) : list string :=
  commandArguments ++ items.

(** [tags.forEach((tag) => commandArguments.push(flag, tag))]. *)
Definition pushEach (flag : string) (tags commandArguments : list string) : list string :=
  fold_left (fun acc tag => push acc [flag; tag]) tags commandArguments.

Definition getCommandArguments (fuel : nat) (documentUri : option Uri) : Run (list string) :=
  let commandArguments := DefaultCommandArguments in
  let extensionConfig := getCurrentConfiguration in
  call configFilePath <- getCredoConfigFilePath fuel documentUri None in
  let commandArguments :=
    if Js.truthy configFilePath
    then push commandArguments ["--config-file"; Js.template configFilePath]
    else commandArguments in
  let commandArguments :=
    if Js.truthy (credoConfiguration extensionConfig)
    then push commandArguments
           ["--config-name"; Js.template (credoConfiguration extensionConfig)]
    else commandArguments in
  let commandArguments :=
    if negb (length (checksWithTag extensionConfig) =? 0)
    then pushEach "--checks-with-tag" (checksWithTag extensionConfig) commandArguments
    else if negb (length (checksWithoutTag extensionConfig) =? 0)
    then pushEach "--checks-without-tag" (checksWithoutTag extensionConfig) commandArguments
    else commandArguments in
  let commandArguments :=
    if strictMode extensionConfig then push commandArguments ["--strict"]
    else commandArguments in
  let commandArguments :=
    if enabled (diffMode extensionConfig)
    then push commandArguments
           ["--from-git-merge-base";
            Js.or_string (mergeBase (diffMode extensionConfig)) "main"]
    else commandArguments in
  let commandPrefix :=
    if enabled (diffMode extensionConfig)
    then [DefaultCommand; DiffCommand] else [DefaultCommand] in
  ret (commandPrefix ++ commandArguments).

(** [getCommandEnvironment()]: the spread copies every variable, then
    [PATH] is set. *)
Definition getCommandEnvironment : gmap string string :=
  let executePath := conf_executePath in
  if Js.truthy executePath
  then <["PATH" :=
          Js.cat (Js.template (process_env !! "PATH"))
            (Js.cat delimiter (Js.template executePath))]> process_env
  else process_env.

End Utilities.

(** ** The command line as the specification describes it (section 4.2) *)

Module Spec.

(** One flag/value pair per value. *)
Definition pairs (flag : string) (values : list string) : list string :=
  flat_map (fun v => [flag; v]) values.

(** The tool name, followed by the diff subcommand in diff mode. *)
Definition commandPrefix (d : DiffMode) : list string :=
  if enabled d then ["credo"; "diff"] else ["credo"].

(** Structured output, source read from standard input. *)
Definition baseline : list string := ["--format"; "json"; "--read-from-stdin"].

(** The flag for a resolved (non-empty) configuration path. *)
Definition configFileFlags (resolved : option string) : list string :=
  match resolved with
  | Some f => if bool_decide (f = "") then [] else ["--config-file"; f]
  | None => []
  end.

(** The flag for a named configuration profile. *)
Definition configNameFlags (profile : option string) : list string :=
  match profile with
  | Some n => if bool_decide (n = "") then [] else ["--config-name"; n]
  | None => []
  end.

(** Include tags if there are any, else exclude tags. *)
Definition tagFlags (include exclude : list string) : list string :=
  match include with
  | [] => pairs "--checks-without-tag" exclude
  | _ :: _ => pairs "--checks-with-tag" include
  end.

Definition strictFlags (strict : bool) : list string :=
  if strict then ["--strict"] else [].

(** The merge base to compare against, [main] when none is configured. *)
Definition mergeBaseName (d : DiffMode) : string :=
  match mergeBase d with
  | Some b => if bool_decide (b = "") then "main" else b
  | None => "main"
  end.

Definition diffFlags (d : DiffMode) : list string :=
  if enabled d then ["--from-git-merge-base"; mergeBaseName d] else [].

(** The flags between the baseline and the diff flag. *)
Definition optionalFlags (resolved profile : option string)
    (include exclude : list string) (strict : bool) : list string :=
  configFileFlags resolved ++ configNameFlags profile
    ++ tagFlags include exclude ++ strictFlags strict.

Definition commandLine (c : CredoConfiguration) (resolved : option string) : list string :=
  commandPrefix (diffMode c) ++ baseline
    ++ optionalFlags resolved (credoConfiguration c)
         (checksWithTag c) (checksWithoutTag c) (strictMode c)
    ++ diffFlags (diffMode c).

(** The upward search: a hit in the current directory, a miss at the stop
    directory, or the answer of the parent directory. *)
Inductive upwardSearch {P : PathModule} {H : Host} (name : string)
    (stopAt : option string) : string -> option string -> Prop :=
| search_hit dir :
    fs_exists (join [dir; name]) = true ->
    upwardSearch name stopAt dir (Some dir)
| search_stop dir :
    fs_exists (join [dir; name]) = false ->
    Some dir = stopAt ->
    upwardSearch name stopAt dir None
| search_parent dir r :
    fs_exists (join [dir; name]) = false ->
    Some dir <> stopAt ->
    upwardSearch name stopAt (dirname dir) r ->
    upwardSearch name stopAt dir r.

End Spec.

(** ** Directories and their ancestors *)

Section Ancestors.
Context {P : PathModule}.

(** [a] is [d] or one of its ancestors: [a] is reached from [d] by taking
    the parent a number of times. *)
Definition ancestor_or_self (a d : string) : Prop :=
  exists n : nat, Nat.iter n dirname d = a.

Definition proper_ancestor (a d : string) : Prop :=
  ancestor_or_self a d /\ a <> d.

(** The workspace folder of a document, if it has one, is the [k]-th
    ancestor of the document's directory. *)
Definition inside_workspace {H : Host} (u : Uri) (k : nat) : Prop :=
  match workspaceFolderOf u with
  | Some w => Nat.iter k dirname (dirname (fsPath u)) = fsPath (uri w)
  | None => True
  end.

End Ancestors.

(** ** Concrete surroundings, for running the functions *)

Module Sample.

Definition fileUri (p : string) : Uri := {| scheme := "file"; fsPath := p |}.

Definition noDiff : DiffMode := {| enabled := false; mergeBase := None |}.

Definition defaults : CredoConfiguration := {|
  configurationFile := None;
  credoConfiguration := None;
  checksWithTag := [];
  checksWithoutTag := [];
  strictMode := false;
  diffMode := noDiff
|}.

(** A host with the given files, one workspace folder [/proj] that holds
    every document under it, and the given configuration. *)
Definition host (files : list string) (c : CredoConfiguration)
    (env : gmap string string) (executePath : option string) : Host := {|
  fs_exists := fun p => bool_decide (p ∈ files);
  workspaceFolderOf := fun u =>
    if Js.starts_with (Js.chars "/proj/") (Js.chars (fsPath u))
    then Some {| uri := fileUri "/proj" |} else None;
  getCurrentConfiguration := c;
  process_env := env;
  conf_executePath := executePath
|}.

Definition document : Uri := fileUri "/proj/lib/app/server.ex".

(** A project with its configuration under [config/]. *)
Definition project : Host :=
  host ["/proj/mix.exs"; "/proj/config/.credo.exs"] defaults ∅ None.

(** No file at all. *)
Definition bare : Host := host [] defaults ∅ None.

(** An absolute configuration file, and a file of the same name under the
    project folder. *)
Definition overridden : Host :=
  host ["/etc/credo.exs"; "/proj/etc/credo.exs"]
    {| configurationFile := Some "/etc/credo.exs";
       credoConfiguration := None;
       checksWithTag := [];
       checksWithoutTag := [];
       strictMode := false;
       diffMode := noDiff |}
    ∅ None.

(** Include tags and exclude tags together. *)
Definition tagged : Host :=
  host []
    {| configurationFile := None;
       credoConfiguration := None;
       checksWithTag := ["a"; "b"];
       checksWithoutTag := ["c"];
       strictMode := false;
       diffMode := noDiff |}
    ∅ None.

(** Diff mode without a merge base. *)
Definition diffing : Host :=
  host []
    {| configurationFile := None;
       credoConfiguration := None;
       checksWithTag := [];
       checksWithoutTag := [];
       strictMode := false;
       diffMode := {| enabled := true; mergeBase := None |} |}
    ∅ None.

(** A document directly under the file-system root, outside every
    workspace folder, with a configuration file next to it. *)
Definition atRoot : Host := host ["/.credo.exs"] defaults ∅ None.

Definition rootDocument : Uri := fileUri "/server.ex".

(** A search-path override. *)
Definition withExecutePath : Host :=
  host [] defaults {[ "PATH" := "/usr/bin"; "HOME" := "/home/dev" ]}
    (Some "/opt/elixir/bin").

End Sample.

(** ** The other helpers of [utilities.ts] *)

(** [makeZeroBasedIndex].  A [number] is modelled where it is an integer
    that a double holds exactly (a line or column number), or [NaN];
    [undefined] and [null] are [None]. *)
Module Index.

Inductive number := NaN | Int (z : Z).


(** [if (index)]: zero and [NaN] are falsy. *)
Definition truthy (n : number) : bool :=
  match n with
  | NaN => false
  | Int z => negb (z =? 0)%Z
  end.


End Index.

(** [trunc], the template tag.  Texts are sequences of UTF-16 code units;
    a placeholder is given by the text that [+] turns its value into. *)
Module Trunc.

Definition text : Type := list N.

Definition LF : N := 10.
Definition SPACE : N := 32.

(** The text of [undefined]. *)
Definition undefined : text := [117; 110; 100; 101; 102; 105; 110; 101; 100]%N.

(** The class [\s]: white space and line terminators. *)
Definition is_white (c : N) : bool :=
  bool_decide (c ∈ [9; 10; 11; 12; 13; 32; 160; 5760; 8232; 8233; 8239; 8287;
                    12288; 65279]%N)
  || ((8192 <=? c)%N && (c <=? 8202)%N).

(** [placeholders[i - 1]], in a text. *)
Definition placeholder (placeholders : list text) (i : nat) : text :=
  match i with
  | O => undefined
  | S j => nth j placeholders undefined
  end.

(** [strings.reduce((result, string, i) => result + placeholders[i - 1] + string)]
    from index [i] on. *)
Fixpoint reduce (result : text) (i : nat) (strings placeholders : list text) : text :=
  match strings with
  | [] => result
  | string :: rest =>
      reduce (result ++ placeholder placeholders i ++ string) (S i) rest placeholders
  end.

(** [.replace(/$\n^\s*/gm, ' ')]: with the [m] flag both assertions hold
    around every line feed, so each line feed and the white space after it
    become one space; [skipping] is set inside such a match. *)
Fixpoint collapse (skipping : bool) (s : text) : text :=
  match s with
  | [] => []
  | c :: s' =>
      if skipping && is_white c then collapse true s'
      else if (c =? LF)%N then SPACE :: collapse true s'
      else c :: collapse false s'
  end.

(** [trunc(strings, ...placeholders)]; [reduce] without an initial value
    throws on an empty array. *)
Definition trunc (strings placeholders : list text) : option text :=
  match strings with
  | [] => None
  | first :: rest => Some (collapse false (reduce first 1 rest placeholders))
  end.

End Trunc.

(** ** Counting the recorded calls *)

Definition is_lookup (e : event) : bool :=
  match e with EvWorkspace _ => true | _ => false end.

Definition is_probe (e : event) : bool :=
  match e with EvExists _ => true | _ => false end.

(** A run with the log calls left out of its record. *)
Definition without_logs {A} (r : Run A) : Run A :=
  prod_map id (List.filter (fun e => negb (is_log e))) <$> r.

(** The existence checks of an upward search that visits [n] directories. *)
Definition probes {P : PathModule} (name start : string) (n : nat) : list event :=
  map (fun i => EvExists (join [Nat.iter i dirname start; name])) (seq 0 n).

(** ** More concrete surroundings *)

Module Fixture.
Import Sample.

(** A configuration file in the project folder and one under [config/]. *)
Definition duplicated : Host :=
  host ["/proj/.credo.exs"; "/proj/config/.credo.exs"] defaults ∅ None.

(** A mix project with its configuration two directories above the
    document. *)
Definition umbrella : Host :=
  host ["/proj/mix.exs"; "/proj/lib/.credo.exs"; "/proj/.credo.exs"] defaults ∅ None.

(** A search-path override in an environment without [PATH]. *)
Definition withoutPath : Host :=
  host [] defaults {[ "HOME" := "/home/dev" ]} (Some "/opt/elixir/bin").

End Fixture.

(** * Properties *)

(** ** Strings *)

Module JsFacts.

Lemma of_chars_chars (s : string) : Js.of_chars (Js.chars s) = s.
Proof. apply string_of_list_ascii_of_string. Qed.

Lemma chars_of_chars (l : list ascii) : Js.chars (Js.of_chars l) = l.
Proof. apply list_ascii_of_string_of_list_ascii. Qed.

Lemma chars_cat (a b : string) : Js.chars (Js.cat a b) = Js.chars a ++ Js.chars b.
Proof.
  unfold Js.cat, Js.chars.
  induction a as [|c a IH]; simpl; [reflexivity | now rewrite IH].
Qed.

Lemma cat_assoc (a b c : string) : Js.cat a (Js.cat b c) = Js.cat (Js.cat a b) c.
Proof.
  unfold Js.cat. induction a as [|x a IH]; [reflexivity |].
  change (String x (String.append a (String.append b c))
          = String x (String.append (String.append a b) c)).
  now rewrite IH.
Qed.

Lemma starts_with_app (p r : list ascii) : Js.starts_with p (p ++ r) = true.
Proof.
  induction p as [|c p IH]; simpl; [reflexivity |].
  rewrite bool_decide_eq_true_2 by reflexivity. exact IH.
Qed.

Lemma remove_first_chars_prefix (p r : list ascii) :
  Js.remove_first_chars p (p ++ r) = r.
Proof.
  destruct p as [|c p]; [destruct r; reflexivity |].
  cbn [Js.remove_first_chars app].
  change (c :: p ++ r) with ((c :: p) ++ r).
  rewrite starts_with_app. apply drop_app_length.
Qed.

(** Removing a pattern from a string that starts with it leaves the rest. *)
Lemma remove_first_prefix (pat rest : string) :
  Js.remove_first pat (Js.cat pat rest) = rest.
Proof.
  unfold Js.remove_first.
  now rewrite chars_cat, remove_first_chars_prefix, of_chars_chars.
Qed.

Lemma truthy_Some (s : string) : s <> "" -> Js.truthy (Some s) = true.
Proof. intros Hs. simpl. now rewrite bool_decide_eq_false_2. Qed.

Lemma or_string_nonempty (a : option string) (b : string) :
  b <> "" -> Js.or_string a b <> "".
Proof.
  intros Hb. destruct a as [s|]; simpl; [|exact Hb].
  case_bool_decide; assumption.
Qed.

End JsFacts.

(** ** [path.posix] satisfies the laws *)

Module PosixFacts.
Import Posix.

Lemma drop_while_length f l : length (drop_while f l) <= length l.
Proof.
  induction l as [|c l IH]; simpl; [lia |].
  destruct (f c); simpl; lia.
Qed.

Lemma drop_while_head f l x t : drop_while f l = x :: t -> f x = false.
Proof.
  induction l as [|c l IH]; simpl; [discriminate |].
  destruct (f c) eqn:Hc; [exact IH |].
  intros Heq. injection Heq as -> _. exact Hc.
Qed.

(** The separator at which [dirname] cuts has at least one character of
    the last component after it. *)
Lemma scan_shorter (l : list ascii) x before :
  drop_while (fun c => negb (is_slash c)) (drop_while is_slash l) = x :: before ->
  length before + 2 <= length l.
Proof.
  intros Hscan.
  pose proof (drop_while_length is_slash l) as Hlen.
  destruct (drop_while is_slash l) as [|y t] eqn:Hr1; [discriminate |].
  apply drop_while_head in Hr1.
  simpl in Hscan. rewrite Hr1 in Hscan. simpl in Hscan.
  pose proof (drop_while_length (fun c => negb (is_slash c)) t) as Hlen2.
  rewrite Hscan in Hlen2. simpl in *. lia.
Qed.

Lemma weight_long (l : list ascii) : 2 <= length l -> weight l = 2 * length l + 1.
Proof. destruct l as [|a [|b l]]; simpl; intros; try lia. Qed.

Lemma weight_short (c : ascii) : weight [c] <= 3.
Proof. simpl. destruct (_ || _); lia. Qed.

Lemma dirname_chars_weight (l : list ascii) :
  dirname_chars l = l \/ weight (dirname_chars l) < weight l.
Proof.
  destruct l as [|c0 rest]; [right; simpl; lia |].
  unfold dirname_chars.
  destruct (drop_while _ (drop_while is_slash (rev rest))) as [|x before] eqn:Hscan.
  - destruct rest as [|c1 rest].
    + unfold is_slash. simpl. repeat case_bool_decide; subst; simpl; auto; right; lia.
    + right. rewrite (weight_long (c0 :: c1 :: rest)) by (simpl; lia).
      destruct (is_slash c0); simpl; lia.
  - apply scan_shorter in Hscan. rewrite length_rev in Hscan.
    right. rewrite (weight_long (c0 :: rest)) by (simpl; lia).
    destruct before as [|b before].
    + destruct (is_slash c0).
      * simpl in *. lia.
      * pose proof (weight_short c0). simpl length in *. lia.
    + rewrite weight_long by (simpl; rewrite length_app; simpl; lia).
      simpl length in *. rewrite length_app, length_rev in *. simpl. lia.
Qed.

Lemma weight_iter (n : nat) (l : list ascii) :
  weight (Nat.iter n dirname_chars l) <= weight l.
Proof.
  induction n as [|n IH]; simpl; [lia |].
  destruct (dirname_chars_weight (Nat.iter n dirname_chars l)) as [-> | Hlt]; lia.
Qed.

Lemma dirname_chars_no_cycle (l : list ascii) (n : nat) :
  Nat.iter (S n) dirname_chars l = l -> dirname_chars l = l.
Proof.
  intros Hcycle.
  destruct (dirname_chars_weight l) as [Hfix | Hlt]; [exact Hfix |].
  rewrite Nat.iter_succ_r in Hcycle.
  pose proof (weight_iter n (dirname_chars l)) as Hle.
  rewrite Hcycle in Hle. lia.
Qed.

Lemma chars_iter_dirname (n : nat) (p : string) :
  Js.chars (Nat.iter n dirname p) = Nat.iter n dirname_chars (Js.chars p).
Proof.
  induction n as [|n IH]; simpl; [reflexivity |].
  unfold dirname at 1. now rewrite JsFacts.chars_of_chars, IH.
Qed.

Lemma dirname_chars_nonempty (l : list ascii) : dirname_chars l <> [].
Proof.
  destruct l as [|c0 rest]; [discriminate |].
  unfold dirname_chars.
  destruct (drop_while _ _) as [|x [|b before]]; destruct (is_slash c0); discriminate.
Qed.

Lemma posix_laws : PathLaws posix.
Proof.
  split.
  - reflexivity.
  - intros p Hp. apply (dirname_chars_nonempty (Js.chars p)).
    change (Posix.dirname p = "") in Hp. unfold dirname in Hp.
    apply (f_equal Js.chars) in Hp. now rewrite JsFacts.chars_of_chars in Hp.
  - intros p n Hcycle. change (Nat.iter (S n) dirname p = p) in Hcycle.
    change (dirname p = p).
    apply (f_equal Js.chars) in Hcycle. rewrite chars_iter_dirname in Hcycle.
    apply dirname_chars_no_cycle in Hcycle.
    unfold dirname. rewrite Hcycle. apply JsFacts.of_chars_chars.
Qed.

End PosixFacts.

(** ** The upward search *)

Section FindUpFacts.
Context {P : PathModule} {H : Host}.

(** One call of [findUp], with the recorded existence check. *)
Lemma findUp_step (fuel : nat) (name dir : string) (stopAt : option string) :
  findUp (S fuel) name dir stopAt =
    let probe := EvExists (join [dir; name]) in
    if fs_exists (join [dir; name]) then Some (Some dir, [probe])
    else if bool_decide (Some dir = stopAt) then Some (None, [probe])
    else match findUp fuel name (dirname dir) stopAt with
         | Some (r, tr) => Some (r, probe :: tr)
         | None => None
         end.
Proof.
  cbn [findUp]. unfold bind, existsSync.
  destruct (fs_exists (join [dir; name])); [reflexivity |].
  destruct (bool_decide (Some dir = stopAt)); [reflexivity |].
  destruct (findUp fuel name (dirname dir) stopAt) as [[r tr]|]; reflexivity.
Qed.

Lemma findUp_sound (fuel : nat) (name : string) (stopAt : option string) :
  forall dir r,
    result (findUp fuel name dir stopAt) = Some r -> Spec.upwardSearch name stopAt dir r.
Proof.
  induction fuel as [|fuel IH]; intros dir r; [discriminate |].
  rewrite findUp_step. cbv zeta.
  destruct (fs_exists (join [dir; name])) eqn:Hprobe.
  - intros [= <-]. now apply Spec.search_hit.
  - case_bool_decide as Hstop.
    + intros [= <-]. now apply Spec.search_stop.
    + destruct (findUp fuel name (dirname dir) stopAt) as [[r' tr]|] eqn:Hrec;
        [|discriminate].
      intros [= <-]. apply Spec.search_parent; [assumption .. |].
      apply IH. now rewrite Hrec.
Qed.

Lemma findUp_complete (name : string) (stopAt : option string) (dir : string)
    (r : option string) :
  Spec.upwardSearch name stopAt dir r ->
  exists fuel, result (findUp fuel name dir stopAt) = Some r.
Proof.
  induction 1 as [dir Hhit | dir Hmiss Hstop | dir r Hmiss Hstop _ [fuel IH]].
  - exists 1. rewrite findUp_step. cbv zeta. now rewrite Hhit.
  - exists 1. rewrite findUp_step. cbv zeta. rewrite Hmiss.
    now rewrite bool_decide_eq_true_2.
  - exists (S fuel). rewrite findUp_step. cbv zeta. rewrite Hmiss.
    rewrite bool_decide_eq_false_2 by assumption.
    destruct (findUp fuel name (dirname dir) stopAt) as [[r' tr]|];
      [|discriminate].
    simpl in IH |- *. exact IH.
Qed.

(** C1. [findUp] computes the reference recursion of the specification:
    for every name, directory and optional stop directory, it returns [r]
    (with enough recursion depth) exactly when the reference recursion
    "hit in this directory, else absence at the stop directory, else the
    answer for the parent" gives [r].  In particular, when the file exists
    directly inside the start directory, the very first call returns that
    directory. *)
Theorem findUp_reference_recursion (name dir : string) (stopAt : option string) :
  (forall r : option string,
      (exists fuel, result (findUp fuel name dir stopAt) = Some r)
      <-> Spec.upwardSearch name stopAt dir r)
  /\ (fs_exists (join [dir; name]) = true ->
      forall fuel, result (findUp (S fuel) name dir stopAt) = Some (Some dir)).
Proof.
  split.
  - intros r. split.
    + intros [fuel Hrun]. eapply findUp_sound, Hrun.
    + apply findUp_complete.
  - intros Hhit fuel. rewrite findUp_step. cbv zeta. now rewrite Hhit.
Qed.

(** The search from [start] towards a stop directory that is its [k]-th
    ancestor returns within [k + 1] calls; it checks only directories
    between [start] and the stop directory, and a directory it returns
    lies between the two. *)
Lemma findUp_within (name stop : string) (k : nat) :
  forall start,
    Nat.iter k dirname start = stop ->
    exists r tr,
      findUp (S k) name start (Some stop) = Some (r, tr)
      /\ length tr <= S k
      /\ (forall e, In e tr ->
            exists j, j <= k /\ e = EvExists (join [Nat.iter j dirname start; name]))
      /\ (forall d, r = Some d ->
            fs_exists (join [d; name]) = true
            /\ (exists j, j <= k /\ Nat.iter j dirname start = d)
            /\ ancestor_or_self stop d).
Proof.
  induction k as [|k IH]; intros start Hstop; rewrite findUp_step; cbv zeta.
  - simpl in Hstop. subst stop.
    destruct (fs_exists (join [start; name])) eqn:Hprobe.
    + eexists _, _. split; [reflexivity |]. split; [simpl; lia |]. split.
      * intros e [<- | []]. exists 0. split; [lia | reflexivity].
      * intros d [= <-]. split; [assumption |]. split; [|now exists 0].
        exists 0. split; [lia | reflexivity].
    + rewrite bool_decide_eq_true_2 by reflexivity.
      eexists _, _. split; [reflexivity |]. split; [simpl; lia |]. split.
      * intros e [<- | []]. exists 0. split; [lia | reflexivity].
      * intros d [=].
  - destruct (fs_exists (join [start; name])) eqn:Hprobe.
    + eexists _, _. split; [reflexivity |]. split; [simpl; lia |]. split.
      * intros e [<- | []]. exists 0. split; [lia | reflexivity].
      * intros d [= <-]. split; [assumption |]. split; [|now exists (S k)].
        exists 0. split; [lia | reflexivity].
    + case_bool_decide as Hhere.
      * eexists _, _. split; [reflexivity |]. split; [simpl; lia |]. split.
        -- intros e [<- | []]. exists 0. split; [lia | reflexivity].
        -- intros d [=].
      * rewrite Nat.iter_succ_r in Hstop.
        destruct (IH _ Hstop) as (r & tr & -> & Hlen & Hprobes & Hres).
        eexists _, _. split; [reflexivity |]. split; [simpl; lia |]. split.
        -- intros e [<- | Hin]; [exists 0; split; [lia | reflexivity] |].
           destruct (Hprobes e Hin) as (j & Hj & ->).
           exists (S j). split; [lia |]. now rewrite Nat.iter_succ_r.
        -- intros d Hd. destruct (Hres d Hd) as (Hfile & (j & Hj & Hiter) & Hanc).
           split; [assumption |]. split; [|assumption].
           exists (S j). split; [lia |]. now rewrite Nat.iter_succ_r.
Qed.

(** A directory between a directory and one of its ancestors is not a
    proper ancestor of that ancestor. *)
Lemma below_stop_not_above {L : PathLaws P} (stop d : string) :
  ancestor_or_self stop d -> ~ proper_ancestor d stop.
Proof.
  intros [n Hn] [[m Hm] Hneq]. apply Hneq.
  assert (Hfix : forall i, dirname stop = stop -> Nat.iter i dirname stop = stop).
  { intros i Hd. induction i as [|i IHi]; simpl; [reflexivity |].
    now rewrite IHi. }
  destruct (n + m) as [|c] eqn:Hc.
  - assert (m = 0) as -> by lia. now simpl in Hm.
  - rewrite <- Hm. apply Hfix.
    apply (dirname_no_cycle stop c).
    rewrite <- Hc, Nat.iter_add, Hm. exact Hn.
Qed.

(** C2. When the stop directory is the start directory or one of its
    ancestors ([k] steps up), [findUp] returns within [k + 1] calls, after
    at most [k + 1] existence checks, all of them in directories between
    the start and the stop directory; a directory it returns is the start
    directory or an ancestor of it, and is not a proper ancestor of the
    stop directory. *)
Theorem findUp_bounded_by_stop {L : PathLaws P} (name start stop : string) (k : nat) :
  Nat.iter k dirname start = stop ->
  exists r tr,
    findUp (S k) name start (Some stop) = Some (r, tr)
    /\ length tr <= S k
    /\ (forall e, In e tr ->
          exists j, j <= k /\ e = EvExists (join [Nat.iter j dirname start; name]))
    /\ (forall d, r = Some d ->
          ancestor_or_self d start /\ ~ proper_ancestor d stop).
Proof.
  intros Hstop.
  destruct (findUp_within name stop k start Hstop) as (r & tr & Hrun & Hlen & Hprobes & Hres).
  exists r, tr. split; [assumption |]. split; [assumption |].
  split; [assumption |].
  intros d Hd. destruct (Hres d Hd) as (_ & (j & _ & Hj) & Hanc). split.
  - now exists j.
  - now apply below_stop_not_above.
Qed.

End FindUpFacts.

(** ** Resolving the configuration file *)

Section ConfigFacts.
Context {P : PathModule} {H : Host}.

Lemma getProjectFolder_returns {L : PathLaws P} (u : Uri) (k : nat) :
  inside_workspace u k ->
  exists folder tr, getProjectFolder (S k) u = Some (folder, tr) /\ folder <> "".
Proof.
  unfold inside_workspace, getProjectFolder, getWorkspaceFolder.
  destruct (workspaceFolderOf u) as [w|]; intros Hinside.
  - destruct (findUp_within ".credo.exs" _ k _ Hinside) as (r & tr & Hrun & _).
    cbn [bind]. rewrite Hrun. cbn [bind ret].
    eexists _, _. split; [reflexivity |].
    apply JsFacts.or_string_nonempty, dirname_nonempty.
  - cbn [bind ret]. eexists _, _. split; [reflexivity |].
    apply JsFacts.or_string_nonempty, dirname_nonempty.
Qed.

(** The absolute override returns at once. *)
Lemma getCredoConfigFilePath_override (fuel : nat) (documentUri : option Uri)
    (opts : option GetConfigOpts) :
  overrideExists = true ->
  getCredoConfigFilePath fuel documentUri opts
    = Some (Some configuredFile, [EvExists configuredFile]).
Proof.
  unfold overrideExists. intros [Habs Hexists]%andb_true_iff.
  unfold getCredoConfigFilePath, existsSync. rewrite Habs, Hexists. reflexivity.
Qed.

Lemma filterExisting_filter (candidates : list string) :
  filterExisting candidates
    = Some (List.filter fs_exists candidates, map EvExists candidates).
Proof.
  induction candidates as [|c rest IH]; [reflexivity |].
  cbn [filterExisting List.filter map]. rewrite IH. unfold existsSync.
  cbn [bind ret]. now rewrite app_nil_r.
Qed.

Lemma override_check_fails :
  overrideExists = false ->
  (if isAbsolute configuredFile then existsSync configuredFile else ret false)
    = Some (false, overrideProbe).
Proof.
  unfold overrideExists, overrideProbe, existsSync.
  destruct (isAbsolute configuredFile); cbn [andb]; [intros -> |]; reflexivity.
Qed.

(** What follows the search for existing candidates: the warning, and the
    first candidate with the folder removed. *)
Lemma report_found (opts : option GetConfigOpts) (folder : string)
    (found : list string) :
  match found with
  | [] =>
      exec (if negb (silentOption opts)
            then log Warning (notFoundMessage configuredFile) else ret tt)
      in ret None
  | first :: _ =>
      exec (if (1 <? length found) && negb (silentOption opts)
            then log Warning (multipleMessage found) else ret tt)
      in ret (Some (Js.remove_first (Js.cat folder sep) first))
  end
  = Some (match found with
          | [] => None
          | first :: _ => Some (Js.remove_first (Js.cat folder sep) first)
          end, warnings opts found).
Proof.
  unfold warnings, log.
  destruct found as [|first rest].
  - destruct (silentOption opts); reflexivity.
  - destruct ((1 <? length (first :: rest)) && negb (silentOption opts));
      reflexivity.
Qed.

(** Without the override and with a project folder, the two candidates
    are checked in order and the first existing one is returned, the
    leftmost occurrence of the folder and separator removed. *)
Lemma getCredoConfigFilePath_search (fuel : nat) (u : Uri)
    (opts : option GetConfigOpts) (folder : string) (tr0 : list event) :
  overrideExists = false ->
  getProjectFolder fuel u = Some (folder, tr0) ->
  folder <> "" ->
  let candidates := configCandidates folder configuredFile in
  let found := List.filter fs_exists candidates in
  getCredoConfigFilePath fuel (Some u) opts
    = Some (match found with
            | [] => None
            | first :: _ => Some (Js.remove_first (Js.cat folder sep) first)
            end,
            overrideProbe ++ tr0 ++ map EvExists candidates ++ warnings opts found).
Proof.
  intros Hover Hfolder Hne. cbv zeta.
  pose proof (JsFacts.truthy_Some folder Hne) as Htruthy.
  unfold getCredoConfigFilePath.
  rewrite (override_check_fails Hover). cbn [bind].
  rewrite Hfolder. cbn [bind ret]. rewrite Htruthy. cbn [negb bind ret].
  rewrite Htruthy. cbn [Js.template]. rewrite filterExisting_filter.
  cbn [bind]. rewrite report_found. now rewrite app_nil_r, app_nil_l.
Qed.

(** Without the override and without a document, nothing is searched. *)
Lemma getCredoConfigFilePath_no_document (fuel : nat) (opts : option GetConfigOpts) :
  overrideExists = false ->
  getCredoConfigFilePath fuel None opts
    = Some (None, overrideProbe ++ warnings opts []).
Proof.
  intros Hover. unfold getCredoConfigFilePath.
  rewrite (override_check_fails Hover). cbn [bind ret Js.truthy].
  rewrite (report_found opts "undefined" []). now rewrite ?app_nil_l.
Qed.

End ConfigFacts.

Section ConfigClaims.
Context {P : PathModule} {H : Host} {L : PathLaws P}.

Lemma findUp_logs_nothing (fuel : nat) (name : string) (stopAt : option string) :
  forall dir r tr,
    findUp fuel name dir stopAt = Some (r, tr) -> List.filter is_log tr = [].
Proof.
  induction fuel as [|fuel IH]; intros dir r tr; [discriminate |].
  rewrite findUp_step. cbv zeta.
  destruct (fs_exists (join [dir; name])); [now intros [= <- <-] |].
  destruct (bool_decide (Some dir = stopAt)); [now intros [= <- <-] |].
  destruct (findUp fuel name (dirname dir) stopAt) as [[r' tr']|] eqn:Hrec;
    [|discriminate].
  intros [= <- <-]. cbn [List.filter is_log]. eapply IH, Hrec.
Qed.

Lemma getProjectFolder_logs_nothing (fuel : nat) (u : Uri) (folder : string)
    (tr : list event) :
  getProjectFolder fuel u = Some (folder, tr) -> List.filter is_log tr = [].
Proof.
  unfold getProjectFolder, getWorkspaceFolder. cbn [bind].
  destruct (workspaceFolderOf u) as [w|].
  - destruct (findUp fuel _ _ _) as [[r tr']|] eqn:Hrun; [|discriminate].
    cbn [bind ret]. intros [= _ <-]. rewrite app_nil_r.
    cbn [List.filter is_log]. eapply findUp_logs_nothing, Hrun.
  - cbn [bind ret]. now intros [= _ <-].
Qed.

Lemma overrideProbe_logs_nothing : List.filter is_log overrideProbe = [].
Proof. unfold overrideProbe. now destruct (isAbsolute configuredFile). Qed.

Lemma probes_log_nothing (l : list string) : List.filter is_log (map EvExists l) = [].
Proof. induction l as [|c l IH]; [reflexivity | exact IH]. Qed.

Lemma warnings_are_logs (opts : option GetConfigOpts) (found : list string) :
  List.filter is_log (warnings opts found) = warnings opts found.
Proof.
  unfold warnings. destruct found as [|f rest].
  - now destruct (silentOption opts).
  - now destruct ((1 <? length (f :: rest)) && negb (silentOption opts)).
Qed.

(** Resolving the configuration file returns, at depth [k + 1], for every
    document that lies inside its workspace folder, [k] steps below it. *)
Lemma getCredoConfigFilePath_returns (documentUri : option Uri)
    (opts : option GetConfigOpts) (k : nat) :
  (forall u, documentUri = Some u -> inside_workspace u k) ->
  exists resolved tr,
    getCredoConfigFilePath (S k) documentUri opts = Some (resolved, tr).
Proof.
  intros Hinside. destruct overrideExists eqn:Hover.
  - rewrite (getCredoConfigFilePath_override _ _ _ Hover). now eexists _, _.
  - destruct documentUri as [u|].
    + destruct (getProjectFolder_returns u k (Hinside u eq_refl))
        as (folder & tr0 & Hrun & Hne).
      rewrite (getCredoConfigFilePath_search _ _ opts _ _ Hover Hrun Hne).
      now eexists _, _.
    + rewrite (getCredoConfigFilePath_no_document _ opts Hover). now eexists _, _.
Qed.

(** C3. When the configured configuration file is an absolute path to an
    existing file, [getCredoConfigFilePath] returns that path unchanged,
    for every document, option and file system (whatever candidates exist
    under a project folder); the only call it makes is the existence
    check of that path: it looks up no workspace folder and searches no
    directory. *)
Theorem absolute_override_verbatim (path : string) (fuel : nat)
    (documentUri : option Uri) (opts : option GetConfigOpts) :
  configurationFile getCurrentConfiguration = Some path ->
  isAbsolute path = true ->
  fs_exists path = true ->
  getCredoConfigFilePath fuel documentUri opts = Some (Some path, [EvExists path]).
Proof.
  intros Hconf Habs Hexists.
  assert (Hname : configuredFile = path).
  { unfold configuredFile. rewrite Hconf. cbn [Js.or_string].
    case_bool_decide as Hempty; [|reflexivity].
    subst path. rewrite isAbsolute_empty in Habs. discriminate. }
  rewrite <- Hname in *. apply getCredoConfigFilePath_override.
  unfold overrideExists. now rewrite Habs, Hexists.
Qed.

(** C4, as the code has it.  When the configured file is not an absolute
    path to an existing file and the document lies inside its workspace
    folder (if it has one), the project folder is computed, and whenever
    one of the candidates [<folder>/<name>], [<folder>/config/<name>]
    exists, the first existing one in that order is returned with its
    leading [<folder><sep>] stripped, provided it starts with that
    prefix. *)
Theorem first_candidate_relative (u : Uri) (k : nat) (opts : option GetConfigOpts) :
  overrideExists = false ->
  inside_workspace u k ->
  exists folder,
    result (getProjectFolder (S k) u) = Some folder
    /\ forall first rest,
         head (List.filter fs_exists (configCandidates folder configuredFile))
           = Some first ->
         first = Js.cat folder (Js.cat sep rest) ->
         result (getCredoConfigFilePath (S k) (Some u) opts) = Some (Some rest).
Proof.
  intros Hover Hinside.
  destruct (getProjectFolder_returns u k Hinside) as (folder & tr0 & Hrun & Hne).
  exists folder. split; [now rewrite Hrun |].
  intros first rest Hhead Hprefix.
  rewrite (getCredoConfigFilePath_search _ _ opts _ _ Hover Hrun Hne).
  destruct (List.filter fs_exists _) as [|first' others]; [discriminate |].
  injection Hhead as ->. cbn [result fmap option_fmap option_map fst].
  rewrite Hprefix.
  now rewrite JsFacts.cat_assoc, JsFacts.remove_first_prefix.
Qed.

(** C10. Without a document, and when the configured file (the default
    [.credo.exs] when none is configured) is not an absolute path to an
    existing file, [getCredoConfigFilePath] returns null: it looks up no
    workspace folder and checks no candidate (the only existence check is
    that of an absolute configured path), and it logs the not-found warning
    unless silenced. *)
Theorem no_document_not_found (fuel : nat) (opts : option GetConfigOpts) :
  isAbsolute configuredFile && fs_exists configuredFile = false ->
  getCredoConfigFilePath fuel None opts
    = Some (None,
            (if isAbsolute configuredFile then [EvExists configuredFile] else [])
              ++ (if silentOption opts then []
                  else [EvLog Warning (notFoundMessage configuredFile)])).
Proof.
  intros Hover. now rewrite getCredoConfigFilePath_no_document.
Qed.

End ConfigClaims.

(** ** Building the command line *)

Section CommandFacts.
Context {P : PathModule} {H : Host}.

Lemma pushEach_pairs (flag : string) (tags : list string) :
  forall commandArguments,
    pushEach flag tags commandArguments = commandArguments ++ Spec.pairs flag tags.
Proof.
  unfold pushEach, push, Spec.pairs.
  induction tags as [|tag tags IH]; intros args; cbn [fold_left flat_map].
  - now rewrite app_nil_r.
  - rewrite IH, <- app_assoc. reflexivity.
Qed.

(** [getCommandArguments] builds the command line of the specification
    for the configuration path that [getCredoConfigFilePath] resolves, and
    makes no call of its own. *)
Lemma getCommandArguments_layout (fuel : nat) (documentUri : option Uri)
    (resolved : option string) (tr : list event) :
  getCredoConfigFilePath fuel documentUri None = Some (resolved, tr) ->
  getCommandArguments fuel documentUri
    = Some (Spec.commandLine getCurrentConfiguration resolved, tr).
Proof.
  intros Hresolve. unfold getCommandArguments. rewrite Hresolve.
  cbn [bind ret]. rewrite app_nil_r. f_equal. f_equal.
  unfold Spec.commandLine, Spec.optionalFlags, push.
  rewrite !pushEach_pairs.
  destruct getCurrentConfiguration as [file profile include exclude strict [diff base]].
  cbn [credoConfiguration checksWithTag checksWithoutTag strictMode diffMode
       enabled mergeBase].
  assert (Hfile : (if Js.truthy resolved
                   then DefaultCommandArguments ++ ["--config-file"; Js.template resolved]
                   else DefaultCommandArguments)
                  = Spec.baseline ++ Spec.configFileFlags resolved).
  { destruct resolved as [f|]; cbn [Js.truthy Js.template Spec.configFileFlags];
      [case_bool_decide |]; reflexivity. }
  rewrite Hfile.
  assert (Hname : forall args,
             (if Js.truthy profile
              then args ++ ["--config-name"; Js.template profile] else args)
             = args ++ Spec.configNameFlags profile).
  { intros args.
    destruct profile as [n|]; cbn [Js.truthy Js.template Spec.configNameFlags];
      [case_bool_decide |]; cbn [negb]; now rewrite ?app_nil_r. }
  rewrite Hname.
  assert (Htags : forall args,
             (if negb (length include =? 0)
              then args ++ Spec.pairs "--checks-with-tag" include
              else if negb (length exclude =? 0)
                   then args ++ Spec.pairs "--checks-without-tag" exclude
                   else args)
             = args ++ Spec.tagFlags include exclude).
  { intros args. destruct include as [|t include]; [|reflexivity].
    destruct exclude as [|t exclude]; [|reflexivity].
    cbn. now rewrite app_nil_r. }
  rewrite Htags.
  unfold Spec.commandPrefix, Spec.strictFlags, Spec.diffFlags, Spec.mergeBaseName,
    DefaultCommand, DiffCommand.
  cbn [enabled mergeBase].
  destruct strict, diff; rewrite ?app_nil_r, <- ?app_assoc; reflexivity.
Qed.

(** The builder returns whenever the resolution of the configuration file
    does. *)
Lemma getCommandArguments_returns {L : PathLaws P} (documentUri : option Uri) (k : nat) :
  (forall u, documentUri = Some u -> inside_workspace u k) ->
  exists args tr, getCommandArguments (S k) documentUri = Some (args, tr).
Proof.
  intros Hinside.
  destruct (getCredoConfigFilePath_returns documentUri None k Hinside)
    as (resolved & tr & Hresolve).
  rewrite (getCommandArguments_layout _ _ _ _ Hresolve). now eexists _, _.
Qed.

(** C5. With a non-empty include-tags list the builder appends one
    [--checks-with-tag <tag>] pair per include tag, between the
    configuration flags and the strict and diff flags, and nothing for the
    exclude-tags list, whatever it holds; [--checks-without-tag <tag>]
    pairs, one per exclude tag, are appended only when the include-tags
    list is empty. *)
Theorem tag_filters_exclusive (fuel : nat) (documentUri : option Uri)
    (resolved : option string) (tr : list event) :
  getCredoConfigFilePath fuel documentUri None = Some (resolved, tr) ->
  let c := getCurrentConfiguration in
  let front :=
    Spec.commandPrefix (diffMode c) ++ Spec.baseline
      ++ Spec.configFileFlags resolved ++ Spec.configNameFlags (credoConfiguration c) in
  let back := Spec.strictFlags (strictMode c) ++ Spec.diffFlags (diffMode c) in
  (checksWithTag c <> [] ->
   getCommandArguments fuel documentUri
     = Some (front ++ Spec.pairs "--checks-with-tag" (checksWithTag c) ++ back, tr))
  /\ (checksWithTag c = [] ->
      getCommandArguments fuel documentUri
        = Some (front ++ Spec.pairs "--checks-without-tag" (checksWithoutTag c) ++ back,
                tr)).
Proof.
  intros Hresolve c front back. subst front back.
  rewrite (getCommandArguments_layout _ _ _ _ Hresolve).
  unfold Spec.commandLine, Spec.optionalFlags. fold c.
  split; intros Hinclude.
  - destruct (checksWithTag c) as [|t include]; [contradiction |].
    cbn [Spec.tagFlags]. now rewrite <- !app_assoc.
  - rewrite Hinclude. cbn [Spec.tagFlags]. now rewrite <- !app_assoc.
Qed.

(** C6. In diff mode the list starts with the tool name and the diff
    subcommand, before the baseline flags, and ends with
    [--from-git-merge-base] and the configured merge base, [main] when
    none is configured; without diff mode it starts with the tool name
    alone, directly followed by the baseline flags, and holds nothing but
    the baseline and the configuration, tag and strict flags. *)
Theorem diff_mode_form (fuel : nat) (documentUri : option Uri)
    (resolved : option string) (tr : list event) :
  getCredoConfigFilePath fuel documentUri None = Some (resolved, tr) ->
  let c := getCurrentConfiguration in
  let middle :=
    Spec.optionalFlags resolved (credoConfiguration c)
      (checksWithTag c) (checksWithoutTag c) (strictMode c) in
  (enabled (diffMode c) = true ->
   exists base,
     getCommandArguments fuel documentUri
       = Some ("credo" :: "diff" :: "--format" :: "json" :: "--read-from-stdin"
                 :: middle ++ ["--from-git-merge-base"; base], tr)
     /\ (forall b, mergeBase (diffMode c) = Some b -> b <> "" -> base = b)
     /\ (Js.truthy (mergeBase (diffMode c)) = false -> base = "main"))
  /\ (enabled (diffMode c) = false ->
      getCommandArguments fuel documentUri
        = Some ("credo" :: "--format" :: "json" :: "--read-from-stdin" :: middle, tr)).
Proof.
  intros Hresolve c middle. subst middle.
  rewrite (getCommandArguments_layout _ _ _ _ Hresolve).
  unfold Spec.commandLine, Spec.commandPrefix, Spec.diffFlags. fold c.
  split; intros Hdiff; rewrite Hdiff.
  - exists (Spec.mergeBaseName (diffMode c)). split; [reflexivity |].
    unfold Spec.mergeBaseName. split.
    + intros b -> Hb. now rewrite bool_decide_eq_false_2.
    + destruct (mergeBase (diffMode c)) as [b|]; cbn [Js.truthy]; [|reflexivity].
      case_bool_decide; [reflexivity | discriminate].
  - cbn [app]. now rewrite app_nil_r.
Qed.

(** C7, as the code has it.  With strict mode and diff mode disabled the
    list is exactly the tool name, [--format], [json],
    [--read-from-stdin], then the config-file pair, the config-name pair
    and the tag pairs that are configured; with no tags configured it is
    the list of the specification. *)
Theorem plain_mode_arguments (fuel : nat) (documentUri : option Uri)
    (resolved : option string) (tr : list event) :
  getCredoConfigFilePath fuel documentUri None = Some (resolved, tr) ->
  let c := getCurrentConfiguration in
  strictMode c = false ->
  enabled (diffMode c) = false ->
  getCommandArguments fuel documentUri
    = Some ("credo" :: "--format" :: "json" :: "--read-from-stdin"
              :: Spec.configFileFlags resolved
              ++ Spec.configNameFlags (credoConfiguration c)
              ++ Spec.tagFlags (checksWithTag c) (checksWithoutTag c), tr)
  /\ (checksWithTag c = [] -> checksWithoutTag c = [] ->
      getCommandArguments fuel documentUri
        = Some ("credo" :: "--format" :: "json" :: "--read-from-stdin"
                  :: Spec.configFileFlags resolved
                  ++ Spec.configNameFlags (credoConfiguration c), tr)).
Proof.
  intros Hresolve c Hstrict Hdiff.
  rewrite (getCommandArguments_layout _ _ _ _ Hresolve).
  unfold Spec.commandLine, Spec.optionalFlags, Spec.commandPrefix, Spec.diffFlags.
  fold c. rewrite Hstrict, Hdiff. cbn [Spec.strictFlags app].
  rewrite !app_nil_r. split; [reflexivity |].
  intros -> ->. cbn [Spec.tagFlags Spec.pairs flat_map]. now rewrite app_nil_r.
Qed.

(** C9, as the code has it.  With a search-path override configured, the
    environment returned has the override appended to the value of [PATH],
    after the path-list delimiter, and every other variable as in the
    process environment; with no override it is the process environment. *)
Theorem environment_path_appended :
  (forall override,
      conf_executePath = Some override -> override <> "" ->
      (forall old, process_env !! "PATH" = Some old ->
                   getCommandEnvironment !! "PATH"
                     = Some (Js.cat old (Js.cat delimiter override)))
      /\ (forall name, name <> "PATH" ->
                       getCommandEnvironment !! name = process_env !! name))
  /\ (Js.truthy conf_executePath = false -> getCommandEnvironment = process_env).
Proof.
  unfold getCommandEnvironment. split.
  - intros override -> Hne. rewrite (JsFacts.truthy_Some _ Hne). split.
    + intros old ->. now rewrite lookup_insert_eq.
    + intros name Hname. now rewrite lookup_insert_ne.
  - now intros ->.
Qed.

End CommandFacts.

(** ** Absence instead of errors *)

Section AbsenceFacts.
Context {P : PathModule} {H : Host} {L : PathLaws P}.

Lemma filter_none (f : string -> bool) (l : list string) :
  (forall c, In c l -> f c = false) -> List.filter f l = [].
Proof.
  induction l as [|c l IH]; intros Hall; [reflexivity |].
  cbn [List.filter]. rewrite (Hall c (or_introl eq_refl)).
  apply IH. intros c' Hc'. apply Hall. now right.
Qed.

Lemma findUp_miss (name start stop : string) (k : nat) :
  Nat.iter k dirname start = stop ->
  (forall j, j <= k -> fs_exists (join [Nat.iter j dirname start; name]) = false) ->
  exists tr, findUp (S k) name start (Some stop) = Some (None, tr).
Proof.
  intros Hstop Hmiss.
  destruct (findUp_within name stop k start Hstop) as (r & tr & Hrun & _ & _ & Hres).
  destruct r as [d|]; [|now exists tr].
  destruct (Hres d eq_refl) as (Hfile & (j & Hj & <-) & _).
  rewrite (Hmiss j Hj) in Hfile. discriminate.
Qed.

(** C8. The searches return absence, not an error.  (1) When [findUp]
    climbs from the start directory to the stop directory without finding
    the file, it returns undefined.  (2) When the configured file is no
    existing absolute path, the document (if any) lies inside its
    workspace folder and no candidate exists under the project folder,
    [getCredoConfigFilePath] returns null and logs exactly the not-found
    warning unless silenced, and [getCommandArguments] returns the command
    line without a config-file flag. *)
Theorem absence_not_error :
  (forall name start stop k,
      Nat.iter k dirname start = stop ->
      (forall j, j <= k -> fs_exists (join [Nat.iter j dirname start; name]) = false) ->
      result (findUp (S k) name start (Some stop)) = Some None)
  /\ (forall documentUri opts k,
         overrideExists = false ->
         (forall u, documentUri = Some u ->
            inside_workspace u k
            /\ forall folder c,
                 result (getProjectFolder (S k) u) = Some folder ->
                 In c (configCandidates folder configuredFile) ->
                 fs_exists c = false) ->
         (exists tr,
             getCredoConfigFilePath (S k) documentUri opts = Some (None, tr)
             /\ List.filter is_log tr
                  = if silentOption opts then []
                    else [EvLog Warning (notFoundMessage configuredFile)])
         /\ (exists tr,
                let c := getCurrentConfiguration in
                getCommandArguments (S k) documentUri
                  = Some (Spec.commandPrefix (diffMode c) ++ Spec.baseline
                            ++ Spec.configNameFlags (credoConfiguration c)
                            ++ Spec.tagFlags (checksWithTag c) (checksWithoutTag c)
                            ++ Spec.strictFlags (strictMode c)
                            ++ Spec.diffFlags (diffMode c), tr))).
Proof.
  split.
  - intros name start stop k Hstop Hmiss.
    destruct (findUp_miss name start stop k Hstop Hmiss) as [tr ->]. reflexivity.
  - intros documentUri opts k Hover Hdoc.
    assert (Hnull : forall opts', exists tr,
               getCredoConfigFilePath (S k) documentUri opts' = Some (None, tr)
               /\ List.filter is_log tr = warnings opts' []).
    { intros opts'. destruct documentUri as [u|].
      - destruct (Hdoc u eq_refl) as [Hinside Hnone].
        destruct (getProjectFolder_returns u k Hinside) as (folder & tr0 & Hrun & Hne).
        rewrite (getCredoConfigFilePath_search _ _ opts' _ _ Hover Hrun Hne).
        rewrite filter_none
          by (intros c Hc; apply (Hnone folder c); [now rewrite Hrun | exact Hc]).
        eexists. split; [reflexivity |].
        rewrite !List.filter_app, overrideProbe_logs_nothing,
          (getProjectFolder_logs_nothing _ _ _ _ Hrun), probes_log_nothing.
        apply warnings_are_logs.
      - rewrite (getCredoConfigFilePath_no_document _ opts' Hover).
        eexists. split; [reflexivity |].
        now rewrite List.filter_app, overrideProbe_logs_nothing, warnings_are_logs. }
    split.
    + destruct (Hnull opts) as (tr & Hrun & Hlogs). exists tr. split; [exact Hrun |].
      rewrite Hlogs. reflexivity.
    + destruct (Hnull None) as (tr & Hrun & _). exists tr. cbv zeta.
      rewrite (getCommandArguments_layout _ _ _ _ Hrun).
      unfold Spec.commandLine, Spec.optionalFlags.
      cbn [Spec.configFileFlags app]. now rewrite <- !app_assoc.
Qed.

End AbsenceFacts.

(** ** Runs on concrete surroundings *)

Module Runs.
Import Sample.

(** Without a stop directory on the way up, a search that finds nothing
    never returns: the parent of [/] is [/] again. *)
Lemma findUp_past_root_no_return (fuel : nat) :
  @findUp posix bare fuel "mix.exs" "/" None = None.
Proof.
  induction fuel as [|fuel IH]; [reflexivity |].
  rewrite findUp_step. cbv zeta.
  assert (Hmiss : @fs_exists bare (@join posix ["/"; "mix.exs"]) = false)
    by reflexivity.
  rewrite Hmiss. rewrite bool_decide_eq_false_2 by discriminate.
  change (@dirname posix "/") with "/". now rewrite IH.
Qed.

(** When the project folder is the file-system root, the candidate does not
    start with the folder followed by a separator, and it is returned as it
    is. *)
Lemma root_folder_candidate_unchanged :
  result (@getProjectFolder posix atRoot 1 rootDocument) = Some "/"
  /\ result (@getCredoConfigFilePath posix atRoot 1 (Some rootDocument) None)
       = Some (Some "/.credo.exs").
Proof. split; reflexivity. Qed.

Lemma findUp_reference_recursion_witness :
@fs_exists project (@join posix ["/proj"; "mix.exs"]) = true
/\ result (@findUp posix project 1 "mix.exs" "/proj" (Some "/proj"))
     = Some (Some "/proj").
Proof.
split; [reflexivity |].
apply (proj2 (@findUp_reference_recursion posix project "mix.exs" "/proj" (Some "/proj"))).
reflexivity.
Defined.

Lemma findUp_bounded_by_stop_witness :
Nat.iter 2 (@dirname posix) "/proj/lib/app" = "/proj"
/\ exists r tr,
     @findUp posix project 3 "mix.exs" "/proj/lib/app" (Some "/proj") = Some (r, tr)
     /\ length tr <= 3
     /\ (forall d, r = Some d ->
           @ancestor_or_self posix d "/proj/lib/app"
           /\ ~ @proper_ancestor posix d "/proj").
Proof.
split; [reflexivity |].
destruct (@findUp_bounded_by_stop posix project PosixFacts.posix_laws
            "mix.exs" "/proj/lib/app" "/proj" 2 eq_refl)
  as (r & tr & Hrun & Hlen & _ & Hres).
exists r, tr. split; [exact Hrun |]. split; [exact Hlen | exact Hres].
Defined.

Lemma absolute_override_verbatim_witness :
@isAbsolute posix "/etc/credo.exs" = true
/\ @fs_exists overridden "/etc/credo.exs" = true
/\ @fs_exists overridden "/proj/etc/credo.exs" = true
/\ @getCredoConfigFilePath posix overridden 0 (Some document) None
     = Some (Some "/etc/credo.exs", [EvExists "/etc/credo.exs"]).
Proof.
split; [reflexivity |]. split; [reflexivity |]. split; [reflexivity |].
apply (@absolute_override_verbatim posix overridden PosixFacts.posix_laws);
  reflexivity.
Defined.

(** C4 as stated fails: a candidate under the project folder exists, and
  the result is the absolute override, not the candidate made relative. *)
Lemma first_candidate_counterexample :
result (@getProjectFolder posix overridden 3 document) = Some "/proj"
/\ head (List.filter (@fs_exists overridden)
           (@configCandidates posix "/proj" (@configuredFile overridden)))
     = Some "/proj/etc/credo.exs"
/\ Js.remove_first (Js.cat "/proj" (@sep posix)) "/proj/etc/credo.exs" = "etc/credo.exs"
/\ result (@getCredoConfigFilePath posix overridden 3 (Some document) None)
     = Some (Some "/etc/credo.exs")
/\ result (@getCredoConfigFilePath posix overridden 3 (Some document) None)
     <> Some (Some "etc/credo.exs").
Proof.
split; [reflexivity |]. split; [reflexivity |]. split; [reflexivity |].
split; [reflexivity | discriminate].
Qed.

Lemma first_candidate_relative_witness :
@inside_workspace posix project document 2
/\ head (List.filter (@fs_exists project)
           (@configCandidates posix "/proj" (@configuredFile project)))
     = Some "/proj/config/.credo.exs"
/\ result (@getCredoConfigFilePath posix project 3 (Some document) None)
     = Some (Some "config/.credo.exs").
Proof.
assert (Hinside : @inside_workspace posix project document 2) by reflexivity.
split; [exact Hinside |]. split; [reflexivity |].
destruct (@first_candidate_relative posix project PosixFacts.posix_laws
            document 2 None eq_refl Hinside) as (folder & Hfolder & Hrelative).
vm_compute in Hfolder. injection Hfolder as <-.
apply (Hrelative "/proj/config/.credo.exs" "config/.credo.exs"); reflexivity.
Defined.

Lemma tag_filters_exclusive_witness :
checksWithTag (@getCurrentConfiguration tagged) = ["a"; "b"]
/\ checksWithoutTag (@getCurrentConfiguration tagged) = ["c"]
/\ result (@getCommandArguments posix tagged 3 (Some document))
     = Some ["credo"; "--format"; "json"; "--read-from-stdin";
             "--checks-with-tag"; "a"; "--checks-with-tag"; "b"].
Proof.
split; [reflexivity |]. split; [reflexivity |].
destruct (@getCredoConfigFilePath posix tagged 3 (Some document) None)
  as [[resolved tr]|] eqn:Hresolve; [|discriminate].
destruct (@tag_filters_exclusive posix tagged 3 (Some document) resolved tr Hresolve)
  as [Hinclude _].
rewrite Hinclude by discriminate.
vm_compute in Hresolve. injection Hresolve as <- _. reflexivity.
Defined.

Lemma diff_mode_form_witness :
diffMode (@getCurrentConfiguration diffing) = {| enabled := true; mergeBase := None |}
/\ result (@getCommandArguments posix diffing 3 (Some document))
     = Some ["credo"; "diff"; "--format"; "json"; "--read-from-stdin";
             "--from-git-merge-base"; "main"].
Proof.
split; [reflexivity |].
destruct (@getCredoConfigFilePath posix diffing 3 (Some document) None)
  as [[resolved tr]|] eqn:Hresolve; [|discriminate].
destruct (@diff_mode_form posix diffing 3 (Some document) resolved tr Hresolve)
  as [Hdiff _].
destruct (Hdiff eq_refl) as (base & Hrun & _ & Hmain).
rewrite Hrun, (Hmain eq_refl).
vm_compute in Hresolve. injection Hresolve as <- _. reflexivity.
Defined.

(** C7 as stated fails: with strict and diff mode disabled and tags
  configured, the list holds tag flags besides the ones the claim lists. *)
Lemma plain_mode_counterexample :
strictMode (@getCurrentConfiguration tagged) = false
/\ enabled (diffMode (@getCurrentConfiguration tagged)) = false
/\ result (@getCommandArguments posix tagged 3 (Some document))
     = Some ["credo"; "--format"; "json"; "--read-from-stdin";
             "--checks-with-tag"; "a"; "--checks-with-tag"; "b"]
/\ ~ exists file profile : option string,
       ["credo"; "--format"; "json"; "--read-from-stdin";
        "--checks-with-tag"; "a"; "--checks-with-tag"; "b"]
       = "credo" :: "--format" :: "json" :: "--read-from-stdin"
           :: Spec.configFileFlags file ++ Spec.configNameFlags profile.
Proof.
split; [reflexivity |]. split; [reflexivity |]. split; [reflexivity |].
intros (file & profile & Heq).
destruct file as [f|], profile as [n|]; cbn in Heq;
  repeat case_bool_decide; discriminate.
Qed.

Lemma plain_mode_arguments_witness :
strictMode (@getCurrentConfiguration project) = false
/\ enabled (diffMode (@getCurrentConfiguration project)) = false
/\ result (@getCommandArguments posix project 3 (Some document))
     = Some ["credo"; "--format"; "json"; "--read-from-stdin";
             "--config-file"; "config/.credo.exs"].
Proof.
split; [reflexivity |]. split; [reflexivity |].
destruct (@getCredoConfigFilePath posix project 3 (Some document) None)
  as [[resolved tr]|] eqn:Hresolve; [|discriminate].
destruct (@plain_mode_arguments posix project 3 (Some document) resolved tr
            Hresolve eq_refl eq_refl) as [Hrun _].
rewrite Hrun. vm_compute in Hresolve. injection Hresolve as <- _. reflexivity.
Defined.

Lemma absence_not_error_witness :
result (@findUp posix bare 3 "mix.exs" "/proj/lib/app" (Some "/proj")) = Some None
/\ (exists tr,
       @getCredoConfigFilePath posix bare 3 (Some document) None = Some (None, tr)
       /\ List.filter is_log tr
            = [EvLog Warning ".credo.exs file does not exist. Ignoring..."])
/\ (exists tr,
       @getCommandArguments posix bare 3 (Some document)
         = Some (["credo"; "--format"; "json"; "--read-from-stdin"], tr)).
Proof.
destruct (@absence_not_error posix bare PosixFacts.posix_laws) as [Hsearch Hconfig].
split.
- apply (Hsearch "mix.exs" "/proj/lib/app" "/proj" 2); [reflexivity |].
  intros j _. reflexivity.
- apply (Hconfig (Some document) None 2); [reflexivity |].
  intros u [= <-]. split; [reflexivity |].
  intros folder c _ _. reflexivity.
Defined.

(** C9 as stated fails: the override comes after the old value of [PATH],
  not before it. *)
Lemma environment_prepend_counterexample :
@conf_executePath withExecutePath = Some "/opt/elixir/bin"
/\ @process_env withExecutePath !! "PATH" = Some "/usr/bin"
/\ @getCommandEnvironment posix withExecutePath !! "PATH"
     = Some "/usr/bin:/opt/elixir/bin"
/\ @getCommandEnvironment posix withExecutePath !! "PATH"
     <> Some (Js.cat "/opt/elixir/bin" (Js.cat (@delimiter posix) "/usr/bin")).
Proof.
split; [reflexivity |]. split; [vm_compute; reflexivity |].
split; [vm_compute; reflexivity |]. vm_compute. discriminate.
Qed.

Lemma environment_path_appended_witness :
@getCommandEnvironment posix withExecutePath !! "PATH"
  = Some "/usr/bin:/opt/elixir/bin"
/\ @getCommandEnvironment posix withExecutePath !! "HOME" = Some "/home/dev".
Proof.
destruct (@environment_path_appended posix withExecutePath) as [Hset _].
destruct (Hset "/opt/elixir/bin" eq_refl) as [Hpath Hothers]; [discriminate |].
split.
- apply (Hpath "/usr/bin"). vm_compute. reflexivity.
- rewrite Hothers by discriminate. vm_compute. reflexivity.
Defined.

Lemma no_document_not_found_witness :
@getCredoConfigFilePath posix bare 0 None None
  = Some (None, [EvLog Warning ".credo.exs file does not exist. Ignoring..."]).
Proof.
apply (@no_document_not_found posix bare 0 None). reflexivity.
Defined.

End Runs.

(** * Further properties of the code *)

(** ** The upward search, hit by hit *)

Section SearchFacts.
Context {P : PathModule} {H : Host}.

Lemma probes_step (name start : string) (n : nat) :
  probes name start (S n)
    = EvExists (join [start; name]) :: probes name (dirname start) n.
Proof.
  unfold probes. cbn [seq map Nat.iter]. f_equal.
  rewrite <- seq_shift, map_map. apply map_ext. intros i.
  now rewrite Nat.iter_succ_r.
Qed.

(** Every returning search has visited the directories [0 .. j] above the
    start, found nothing and no stop before [j], and ended at [j] with a
    hit or at the stop directory. *)
Lemma findUp_run (name : string) (stopAt : option string) (fuel : nat) :
  forall start r tr,
    findUp fuel name start stopAt = Some (r, tr) ->
    exists j,
      j < fuel
      /\ tr = probes name start (S j)
      /\ (forall i, i < j ->
            fs_exists (join [Nat.iter i dirname start; name]) = false
            /\ Some (Nat.iter i dirname start) <> stopAt)
      /\ match r with
         | Some d =>
             d = Nat.iter j dirname start /\ fs_exists (join [d; name]) = true
         | None =>
             fs_exists (join [Nat.iter j dirname start; name]) = false
             /\ Some (Nat.iter j dirname start) = stopAt
         end.
Proof.
  induction fuel as [|fuel IH]; intros start r tr; [discriminate |].
  rewrite findUp_step. cbv zeta.
  destruct (fs_exists (join [start; name])) eqn:Hprobe.
  - intros [= <- <-]. exists 0. split; [lia |]. split; [reflexivity |].
    split; [intros i Hi; lia | now split].
  - case_bool_decide as Hstop.
    + intros [= <- <-]. exists 0. split; [lia |]. split; [reflexivity |].
      split; [intros i Hi; lia | now split].
    + destruct (findUp fuel name (dirname start) stopAt) as [[r' tr']|] eqn:Hrec;
        [|discriminate].
      intros [= <- <-].
      destruct (IH _ _ _ Hrec) as (j & Hj & -> & Hbefore & Hend).
      exists (S j). split; [lia |]. split; [now rewrite (probes_step _ _ (S j)) |].
      split.
      * intros [|i] Hi; [now split |].
        rewrite Nat.iter_succ_r. apply Hbefore. lia.
      * rewrite Nat.iter_succ_r. exact Hend.
Qed.

(** A search that meets neither the file nor the stop directory in its
    first [n] directories has not returned at depth [n]. *)
Lemma findUp_not_yet (name : string) (stopAt : option string) (n : nat) :
  forall start,
    (forall i, i < n ->
       fs_exists (join [Nat.iter i dirname start; name]) = false
       /\ Some (Nat.iter i dirname start) <> stopAt) ->
    findUp n name start stopAt = None.
Proof.
  induction n as [|n IH]; intros start Hnothing; [reflexivity |].
  rewrite findUp_step. cbv zeta.
  destruct (Hnothing 0 ltac:(lia)) as [Hmiss Hstop].
  change (Nat.iter 0 dirname start) with start in Hmiss, Hstop.
  rewrite Hmiss, bool_decide_eq_false_2 by exact Hstop.
  rewrite IH; [reflexivity |].
  intros i Hi. rewrite <- Nat.iter_succ_r. apply Hnothing. lia.
Qed.

(** The first hit is found at any sufficient depth. *)
Lemma findUp_first_hit (name : string) (stopAt : option string) (j : nat) :
  forall start fuel,
    j < fuel ->
    fs_exists (join [Nat.iter j dirname start; name]) = true ->
    (forall i, i < j ->
       fs_exists (join [Nat.iter i dirname start; name]) = false
       /\ Some (Nat.iter i dirname start) <> stopAt) ->
    findUp fuel name start stopAt
      = Some (Some (Nat.iter j dirname start), probes name start (S j)).
Proof.
  induction j as [|j IH]; intros start [|fuel] Hfuel Hhit Hbefore; try lia;
    rewrite findUp_step; cbv zeta.
  - change (Nat.iter 0 dirname start) with start in Hhit. now rewrite Hhit.
  - destruct (Hbefore 0 ltac:(lia)) as [Hmiss Hstop].
    change (Nat.iter 0 dirname start) with start in Hmiss, Hstop.
    rewrite Hmiss, bool_decide_eq_false_2 by exact Hstop.
    rewrite Nat.iter_succ_r in Hhit.
    rewrite (IH (dirname start) fuel); [| lia | exact Hhit |].
    + now rewrite Nat.iter_succ_r, (probes_step _ _ (S j)).
    + intros i Hi. rewrite <- Nat.iter_succ_r. apply Hbefore. lia.
Qed.

(** X1. A directory returned by [findUp] is the nearest one: it holds the
    file, it is reached from the start directory by [j] steps to the
    parent, no directory before it holds the file or is the stop
    directory, and the existence checks made are exactly those of the
    directories [0 .. j], in order. *)
Theorem findUp_returns_nearest (fuel : nat) (name start : string)
    (stopAt : option string) (d : string) (tr : list event) :
  findUp fuel name start stopAt = Some (Some d, tr) ->
  exists j,
    d = Nat.iter j dirname start
    /\ fs_exists (join [d; name]) = true
    /\ (forall i, i < j ->
          fs_exists (join [Nat.iter i dirname start; name]) = false
          /\ Some (Nat.iter i dirname start) <> stopAt)
    /\ tr = probes name start (S j).
Proof.
  intros Hrun.
  destruct (findUp_run _ _ _ _ _ _ Hrun) as (j & _ & Htr & Hbefore & Hd & Hfile).
  exists j. repeat split; try assumption; now apply Hbefore.
Qed.

(** X2. [findUp] returns undefined only at the stop directory: the stop
    directory is then the start directory or one of its ancestors, and no
    directory from the start up to it holds the file.  Without a stop
    directory it never returns undefined. *)
Theorem findUp_absence_only_at_stop (fuel : nat) (name start : string)
    (stopAt : option string) (tr : list event) :
  findUp fuel name start stopAt = Some (None, tr) ->
  exists j,
    stopAt = Some (Nat.iter j dirname start)
    /\ forall i, i <= j -> fs_exists (join [Nat.iter i dirname start; name]) = false.
Proof.
  intros Hrun.
  destruct (findUp_run _ _ _ _ _ _ Hrun) as (j & _ & _ & Hbefore & Hmiss & Hstop).
  exists j. split; [now symmetry |].
  intros i Hi. destruct (decide (i = j)) as [-> | Hne]; [exact Hmiss |].
  apply Hbefore. lia.
Qed.

(** X3. When no directory on the way up holds the file and none of them is
    the stop directory (in particular when no stop directory is given),
    [findUp] does not return at any recursion depth. *)
Theorem findUp_never_returns (name start : string) (stopAt : option string) :
  (forall i, fs_exists (join [Nat.iter i dirname start; name]) = false) ->
  (forall i, Some (Nat.iter i dirname start) <> stopAt) ->
  forall fuel, findUp fuel name start stopAt = None.
Proof.
  intros Hmiss Hstop fuel. apply findUp_not_yet. intros i _. now split.
Qed.

(** X4. When the file lies [j] directories above the start, with no
    earlier hit and no stop directory before it, [findUp] returns that
    directory at every recursion depth above [j], whatever the stop
    directory is and also without one. *)
Theorem findUp_finds_first_hit (name start : string) (stopAt : option string)
    (j fuel : nat) :
  j < fuel ->
  fs_exists (join [Nat.iter j dirname start; name]) = true ->
  (forall i, i < j ->
     fs_exists (join [Nat.iter i dirname start; name]) = false
     /\ Some (Nat.iter i dirname start) <> stopAt) ->
  result (findUp fuel name start stopAt) = Some (Some (Nat.iter j dirname start)).
Proof.
  intros Hfuel Hhit Hbefore.
  now rewrite (findUp_first_hit name stopAt j start fuel Hfuel Hhit Hbefore).
Qed.

End SearchFacts.

(** ** The project folder and the mix project *)

Section FolderFacts.
Context {P : PathModule} {H : Host} {L : PathLaws P}.

Lemma iter_dirname_nonempty (j : nat) (p : string) :
  p <> "" -> Nat.iter j dirname p <> "".
Proof.
  intros Hp. destruct j as [|j]; [exact Hp |].
  cbn [Nat.iter nat_rect]. apply dirname_nonempty.
Qed.

Lemma iter_fixed (i : nat) (p : string) : dirname p = p -> Nat.iter i dirname p = p.
Proof.
  intros Hfix. induction i as [|i IH]; [reflexivity |].
  cbn [Nat.iter nat_rect]. change (dirname (Nat.iter i dirname p) = p).
  now rewrite IH.
Qed.

(** A search that stopped without a hit has missed the file in every
    directory up to the stop directory, however the latter is counted. *)
Lemma findUp_stopped_misses (name start stop : string) (k : nat) (tr : list event) :
  Nat.iter k dirname start = stop ->
  findUp (S k) name start (Some stop) = Some (None, tr) ->
  forall j, j <= k -> fs_exists (join [Nat.iter j dirname start; name]) = false.
Proof.
  intros Hstop Hrun j Hj.
  destruct (findUp_run _ _ _ _ _ _ Hrun) as (j0 & Hj0 & _ & Hbefore & Hmiss & Hat).
  injection Hat as Hat.
  destruct (decide (j < j0)) as [Hlt | Hge]; [now apply Hbefore |].
  destruct (decide (j = j0)) as [-> | Hne]; [exact Hmiss |].
  assert (Hfix : dirname stop = stop).
  { apply (dirname_no_cycle stop (k - j0 - 1)).
    replace (S (k - j0 - 1)) with (k - j0) by lia.
    rewrite <- Hat at 1. rewrite <- Nat.iter_add.
    now replace (k - j0 + j0) with k by lia. }
  replace j with ((j - j0) + j0) by lia.
  rewrite Nat.iter_add, Hat, (iter_fixed _ _ Hfix), <- Hat. exact Hmiss.
Qed.

Lemma getProjectFolder_nonempty (fuel : nat) (u : Uri) (folder : string)
    (tr : list event) :
  getProjectFolder fuel u = Some (folder, tr) -> folder <> "".
Proof.
  unfold getProjectFolder, getWorkspaceFolder. cbn [bind].
  destruct (match workspaceFolderOf u with Some _ => _ | None => _ end)
    as [[r tr']|]; [|discriminate].
  cbn [bind ret]. intros [= <- _].
  apply JsFacts.or_string_nonempty, dirname_nonempty.
Qed.

(** X5. Without a workspace folder for the document, neither function
    touches the file system: [inMixProject] is false and the project folder
    is the document's directory, after the one workspace lookup. *)
Theorem no_workspace_no_search (fuel : nat) (u : Uri) :
  workspaceFolderOf u = None ->
  inMixProject fuel u = Some (false, [EvWorkspace u])
  /\ getProjectFolder fuel u = Some (dirname (fsPath u), [EvWorkspace u]).
Proof.
  intros Hnone. unfold inMixProject, getProjectFolder, getWorkspaceFolder.
  rewrite Hnone. split; reflexivity.
Qed.

(** X6. For a document whose workspace folder lies [k] directories above
    its own directory, [inMixProject] returns, and it is true exactly when
    one of the directories from the document's directory up to the
    workspace folder holds [mix.exs]. *)
Theorem inMixProject_iff_marker_on_the_way (u : Uri) (w : WorkspaceFolder) (k : nat) :
  workspaceFolderOf u = Some w ->
  Nat.iter k dirname (dirname (fsPath u)) = fsPath (uri w) ->
  exists b tr,
    inMixProject (S k) u = Some (b, tr)
    /\ (b = true <->
        exists j, j <= k
          /\ fs_exists (join [Nat.iter j dirname (dirname (fsPath u)); "mix.exs"]) = true).
Proof.
  intros Hws Hstop. unfold inMixProject, getWorkspaceFolder. rewrite Hws.
  cbn [bind].
  destruct (findUp_within "mix.exs" _ k _ Hstop) as (r & tr & Hrun & _ & _ & Hres).
  rewrite Hrun. cbn [bind ret]. eexists _, _. split; [reflexivity |].
  destruct r as [d|].
  - destruct (Hres d eq_refl) as (Hfile & (j & Hj & Hd) & _).
    rewrite JsFacts.truthy_Some
      by (rewrite <- Hd; apply iter_dirname_nonempty, dirname_nonempty).
    split; [intros _ | reflexivity]. exists j. now rewrite Hd.
  - cbn [Js.truthy]. split; [discriminate |].
    intros (j & Hj & Hfile).
    rewrite (findUp_stopped_misses _ _ _ _ _ Hstop Hrun j Hj) in Hfile. discriminate.
Qed.

(** X7. For a document whose workspace folder lies [k] directories above
    its own directory, the project folder is the nearest directory on the
    way up to the workspace folder that holds [.credo.exs], and the
    workspace folder itself when there is none. *)
Theorem getProjectFolder_nearest_or_workspace (u : Uri) (w : WorkspaceFolder)
    (k : nat) :
  workspaceFolderOf u = Some w ->
  Nat.iter k dirname (dirname (fsPath u)) = fsPath (uri w) ->
  let holds (j : nat) :=
    fs_exists (join [Nat.iter j dirname (dirname (fsPath u)); ".credo.exs"]) in
  exists folder tr,
    getProjectFolder (S k) u = Some (folder, tr)
    /\ ((forall j, j <= k -> holds j = false) -> folder = fsPath (uri w))
    /\ (forall j, j <= k -> holds j = true ->
          exists j0, j0 <= j
            /\ folder = Nat.iter j0 dirname (dirname (fsPath u))
            /\ holds j0 = true
            /\ forall i, i < j0 -> holds i = false).
Proof.
  intros Hws Hstop holds. unfold getProjectFolder, getWorkspaceFolder.
  rewrite Hws. cbn [bind].
  destruct (findUp_within ".credo.exs" _ k _ Hstop) as (r & tr & Hrun & _).
  rewrite Hrun. cbn [bind ret fmap option_fmap option_map].
  eexists _, _. split; [reflexivity |].
  destruct r as [d|].
  - destruct (findUp_run _ _ _ _ _ _ Hrun) as (j0 & Hj0 & _ & Hbefore & Hd & Hfile).
    assert (Hne : d <> "")
      by (rewrite Hd; apply iter_dirname_nonempty, dirname_nonempty).
    unfold Js.or_else. rewrite (JsFacts.truthy_Some d Hne).
    cbn [Js.or_string]. rewrite bool_decide_eq_false_2 by exact Hne.
    split.
    + intros Hnone. specialize (Hnone j0 ltac:(lia)). unfold holds in Hnone.
      rewrite <- Hd, Hfile in Hnone. discriminate.
    + intros j Hj Hholds. exists j0.
      assert (j0 <= j).
      { destruct (decide (j0 <= j)) as [Hle | Hgt]; [exact Hle |].
        destruct (Hbefore j ltac:(lia)) as [Hmiss _].
        unfold holds in Hholds. rewrite Hmiss in Hholds. discriminate. }
      split; [assumption |]. split; [exact Hd |]. unfold holds. rewrite <- Hd.
      split; [exact Hfile |]. intros i Hi. now apply Hbefore.
  - assert (Hne : fsPath (uri w) <> "")
      by (rewrite <- Hstop; apply iter_dirname_nonempty, dirname_nonempty).
    unfold Js.or_else. cbn [Js.truthy Js.or_string].
    rewrite bool_decide_eq_false_2 by exact Hne.
    split; [reflexivity |].
    intros j Hj Hholds. unfold holds in Hholds.
    rewrite (findUp_stopped_misses _ _ _ _ _ Hstop Hrun j Hj) in Hholds. discriminate.
Qed.

End FolderFacts.

(** ** Resolving the configuration file: calls, warnings, defaults *)

Section ResolutionFacts.
Context {P : PathModule} {H : Host} {L : PathLaws P}.

Lemma getCredoConfigFilePath_no_folder (fuel : nat) (u : Uri)
    (opts : option GetConfigOpts) :
  overrideExists = false ->
  getProjectFolder fuel u = None ->
  getCredoConfigFilePath fuel (Some u) opts = None.
Proof.
  intros Hover Hnone. unfold getCredoConfigFilePath.
  rewrite (override_check_fails Hover). cbn [bind]. now rewrite Hnone.
Qed.

Lemma probes_no_lookup (name start : string) (n : nat) :
  List.filter is_lookup (probes name start n) = [].
Proof.
  unfold probes. induction (seq 0 n) as [|i l IH]; [reflexivity | exact IH].
Qed.

Lemma probes_all_probes (name start : string) (n : nat) :
  length (List.filter is_probe (probes name start n)) = n.
Proof.
  unfold probes. transitivity (length (seq 0 n)); [|apply length_seq].
  induction (seq 0 n) as [|i l IH]; [reflexivity |].
  cbn [map List.filter is_probe length]. now rewrite IH.
Qed.

(** The calls of [getProjectFolder]: the workspace lookup, then the
    existence checks of the upward search. *)
Lemma getProjectFolder_calls (fuel : nat) (u : Uri) (folder : string)
    (tr : list event) :
  getProjectFolder fuel u = Some (folder, tr) ->
  exists n, n <= fuel /\ tr = EvWorkspace u :: probes ".credo.exs" (dirname (fsPath u)) n.
Proof.
  unfold getProjectFolder, getWorkspaceFolder. cbn [bind].
  destruct (workspaceFolderOf u) as [w|].
  - destruct (findUp fuel _ _ _) as [[r tr']|] eqn:Hrun; [|discriminate].
    cbn [bind ret]. intros [= _ <-].
    destruct (findUp_run _ _ _ _ _ _ Hrun) as (j & Hj & -> & _).
    exists (S j). split; [lia |]. now rewrite app_nil_r.
  - cbn [bind ret]. intros [= _ <-]. exists 0. split; [lia | reflexivity].
Qed.

Lemma filter_app_logs (a b : list event) :
  List.filter (fun e => negb (is_log e)) (a ++ b)
    = List.filter (fun e => negb (is_log e)) a
        ++ List.filter (fun e => negb (is_log e)) b.
Proof. apply List.filter_app. Qed.

Lemma warnings_filtered_out (opts : option GetConfigOpts) (found : list string) :
  List.filter (fun e => negb (is_log e)) (warnings opts found) = [].
Proof.
  unfold warnings. destruct found as [|f rest].
  - now destruct (silentOption opts).
  - now destruct ((1 <? length (f :: rest)) && negb (silentOption opts)).
Qed.

(** X8. The [silent] option changes nothing but the log: with any two
    option values, [getCredoConfigFilePath] returns the same path (or does
    not return in both cases) after the same workspace lookups and the same
    existence checks, in the same order. *)
Theorem silent_only_silences (fuel : nat) (documentUri : option Uri)
    (opts opts' : option GetConfigOpts) :
  without_logs (getCredoConfigFilePath fuel documentUri opts)
    = without_logs (getCredoConfigFilePath fuel documentUri opts').
Proof.
  destruct overrideExists eqn:Hover.
  - now rewrite !(getCredoConfigFilePath_override _ _ _ Hover).
  - destruct documentUri as [u|].
    + destruct (getProjectFolder fuel u) as [[folder tr0]|] eqn:Hrun.
      * pose proof (getProjectFolder_nonempty _ _ _ _ Hrun) as Hne.
        rewrite !(getCredoConfigFilePath_search _ _ _ _ _ Hover Hrun Hne).
        unfold without_logs.
        cbn [fmap option_fmap option_map prod_map fst snd id].
        now rewrite !filter_app_logs, !warnings_filtered_out.
      * now rewrite !(getCredoConfigFilePath_no_folder _ _ _ Hover Hrun).
    + rewrite !(getCredoConfigFilePath_no_document _ _ Hover).
      unfold without_logs.
      cbn [fmap option_fmap option_map prod_map fst snd id].
      now rewrite !filter_app_logs, !warnings_filtered_out.
Qed.

(** X9. For a document inside its workspace folder and without the
    absolute override: when both candidates exist, the one directly in the
    project folder is used and exactly one warning, naming both and the one
    used, is logged unless silenced; when exactly one of them exists,
    nothing is logged. *)
Theorem duplicate_candidates_warning (u : Uri) (k : nat) (opts : option GetConfigOpts) :
  overrideExists = false ->
  inside_workspace u k ->
  exists folder r tr,
    result (getProjectFolder (S k) u) = Some folder
    /\ getCredoConfigFilePath (S k) (Some u) opts = Some (r, tr)
    /\ let c1 := join [folder; configuredFile] in
       let c2 := join [folder; "config"; configuredFile] in
       (fs_exists c1 = true -> fs_exists c2 = true ->
        r = Some (Js.remove_first (Js.cat folder sep) c1)
        /\ List.filter is_log tr
             = if silentOption opts then []
               else [EvLog Warning (multipleMessage [c1; c2])])
       /\ (fs_exists c1 <> fs_exists c2 -> List.filter is_log tr = []).
Proof.
  intros Hover Hinside.
  destruct (getProjectFolder_returns u k Hinside) as (folder & tr0 & Hrun & Hne).
  exists folder. eexists _, _. split; [now rewrite Hrun |].
  split; [apply (getCredoConfigFilePath_search _ _ opts _ _ Hover Hrun Hne) |].
  cbv zeta. unfold configCandidates. cbn [List.filter].
  rewrite !List.filter_app, overrideProbe_logs_nothing,
    (getProjectFolder_logs_nothing _ _ _ _ Hrun).
  cbn [map List.filter is_log app].
  split.
  - intros -> ->. split; [reflexivity |].
    unfold warnings. cbn [length Nat.ltb Nat.leb andb].
    now destruct (silentOption opts).
  - intros Hdiffer.
    destruct (fs_exists (join [folder; configuredFile]));
      destruct (fs_exists (join [folder; "config"; configuredFile]));
      try contradiction; reflexivity.
Qed.

(** X10. A returning [getCredoConfigFilePath] looks the workspace folder up
    at most once: never for the absolute override or without a document,
    and exactly once otherwise; the second lookup of the source is never
    made, since the project folder is never empty. *)
Theorem one_workspace_lookup (fuel : nat) (documentUri : option Uri)
    (opts : option GetConfigOpts) (r : option string) (tr : list event) :
  getCredoConfigFilePath fuel documentUri opts = Some (r, tr) ->
  List.filter is_lookup tr
    = if overrideExists then []
      else match documentUri with
           | Some u => [EvWorkspace u]
           | None => []
           end.
Proof.
  destruct overrideExists eqn:Hover.
  - rewrite (getCredoConfigFilePath_override _ _ _ Hover). now intros [= _ <-].
  - destruct documentUri as [u|].
    + destruct (getProjectFolder fuel u) as [[folder tr0]|] eqn:Hrun.
      * pose proof (getProjectFolder_nonempty _ _ _ _ Hrun) as Hne.
        destruct (getProjectFolder_calls _ _ _ _ Hrun) as (n & _ & ->).
        rewrite (getCredoConfigFilePath_search _ _ _ _ _ Hover Hrun Hne).
        intros [= _ <-]. rewrite !List.filter_app.
        cbn [List.filter is_lookup]. rewrite !List.filter_app, probes_no_lookup.
        cbn [List.filter is_lookup].
        assert (Hover_calls : List.filter is_lookup overrideProbe = [])
          by (unfold overrideProbe; now destruct (isAbsolute configuredFile)).
        assert (Hwarn : forall found, List.filter is_lookup (warnings opts found) = []).
        { intros found. unfold warnings. destruct found as [|f rest].
          - now destruct (silentOption opts).
          - now destruct ((1 <? length (f :: rest)) && negb (silentOption opts)). }
        now rewrite Hover_calls, Hwarn.
      * rewrite (getCredoConfigFilePath_no_folder _ _ _ Hover Hrun). discriminate.
    + rewrite (getCredoConfigFilePath_no_document _ _ Hover). intros [= _ <-].
      unfold overrideProbe, warnings.
      destruct (isAbsolute configuredFile), (silentOption opts); reflexivity.
Qed.

(** X11. For a document whose workspace folder lies [k] directories above
    its own directory, resolving the configuration file makes at most
    [k + 4] existence checks: one for an absolute configured path, at most
    [k + 1] on the way up, and two for the candidates. *)
Theorem existence_checks_bounded (u : Uri) (k : nat) (opts : option GetConfigOpts) :
  inside_workspace u k ->
  exists r tr,
    getCredoConfigFilePath (S k) (Some u) opts = Some (r, tr)
    /\ length (List.filter is_probe tr) <= k + 4.
Proof.
  intros Hinside. destruct overrideExists eqn:Hover.
  - rewrite (getCredoConfigFilePath_override _ _ _ Hover).
    eexists _, _. split; [reflexivity |]. cbn. lia.
  - destruct (getProjectFolder_returns u k Hinside) as (folder & tr0 & Hrun & Hne).
    destruct (getProjectFolder_calls _ _ _ _ Hrun) as (n & Hn & ->).
    rewrite (getCredoConfigFilePath_search _ _ opts _ _ Hover Hrun Hne).
    eexists _, _. split; [reflexivity |].
    rewrite !List.filter_app, !length_app.
    cbn [List.filter is_probe length]. rewrite probes_all_probes.
    assert (Hover_calls : length (List.filter is_probe overrideProbe) <= 1)
      by (unfold overrideProbe; destruct (isAbsolute configuredFile); cbn; lia).
    assert (Hwarn : forall found, List.filter is_probe (warnings opts found) = []).
    { intros found. unfold warnings. destruct found as [|f rest].
      - now destruct (silentOption opts).
      - now destruct ((1 <? length (f :: rest)) && negb (silentOption opts)). }
    rewrite Hwarn. unfold configCandidates. cbn [map List.filter is_probe length].
    lia.
Qed.

(** X12. With no configuration file configured, a [.credo.exs] in the
    document's directory or in a directory above it, up to the workspace
    folder, is always found: the result is not null. *)
Theorem default_file_on_the_way_is_found (u : Uri) (w : WorkspaceFolder) (k j : nat)
    (opts : option GetConfigOpts) :
  Js.truthy (configurationFile getCurrentConfiguration) = false ->
  workspaceFolderOf u = Some w ->
  Nat.iter k dirname (dirname (fsPath u)) = fsPath (uri w) ->
  j <= k ->
  fs_exists (join [Nat.iter j dirname (dirname (fsPath u)); ".credo.exs"]) = true ->
  exists file tr,
    getCredoConfigFilePath (S k) (Some u) opts = Some (Some file, tr).
Proof.
  intros Hunset Hws Hstop Hj Hfile.
  assert (Hname : configuredFile = ".credo.exs").
  { unfold configuredFile, Js.or_string.
    destruct (configurationFile getCurrentConfiguration) as [s|]; [|reflexivity].
    cbn [Js.truthy] in Hunset. now destruct (bool_decide (s = "")). }
  destruct overrideExists eqn:Hover.
  - rewrite (getCredoConfigFilePath_override _ _ _ Hover). now eexists _, _.
  - assert (Hinside : inside_workspace u k)
      by (unfold inside_workspace; now rewrite Hws).
    destruct (getProjectFolder_returns u k Hinside) as (folder & tr0 & Hrun & Hne).
    rewrite (getCredoConfigFilePath_search _ _ opts _ _ Hover Hrun Hne).
    assert (Hfolder : fs_exists (join [folder; ".credo.exs"]) = true).
    { revert Hrun. unfold getProjectFolder, getWorkspaceFolder. rewrite Hws.
      cbn [bind].
      destruct (findUp (S k) _ _ _) as [[r tr]|] eqn:Hsearch; [|discriminate].
      cbn [bind ret]. intros [= <- _].
      destruct r as [d|].
      - destruct (findUp_run _ _ _ _ _ _ Hsearch) as (j0 & _ & _ & _ & Hd & Hhit).
        assert (Hd_ne : d <> "")
          by (rewrite Hd; apply iter_dirname_nonempty, dirname_nonempty).
        unfold Js.or_else. rewrite (JsFacts.truthy_Some d Hd_ne).
        cbn [Js.or_string]. now rewrite bool_decide_eq_false_2.
      - rewrite (findUp_stopped_misses _ _ _ _ _ Hstop Hsearch j Hj) in Hfile.
        discriminate. }
    unfold configCandidates. cbn [List.filter]. rewrite Hname, Hfolder.
    now eexists _, _.
Qed.

End ResolutionFacts.

(** ** The command line and the environment, beyond the specification *)

Section InvocationFacts.
Context {P : PathModule} {H : Host}.

(** X13. [getCommandArguments] returns exactly when resolving the
    configuration file (not silenced) returns, after the same calls, and
    its list is then, in this order: the tool name (and [diff]), the
    baseline flags, the config-file pair, the config-name pair, the tag
    pairs, [--strict], the merge-base pair. *)
Theorem command_line_order (fuel : nat) (documentUri : option Uri) :
  getCommandArguments fuel documentUri
    = prod_map
        (fun resolved =>
           let c := getCurrentConfiguration in
           Spec.commandPrefix (diffMode c) ++ Spec.baseline
             ++ Spec.configFileFlags resolved
             ++ Spec.configNameFlags (credoConfiguration c)
             ++ Spec.tagFlags (checksWithTag c) (checksWithoutTag c)
             ++ Spec.strictFlags (strictMode c)
             ++ Spec.diffFlags (diffMode c))
        id
      <$> getCredoConfigFilePath fuel documentUri None.
Proof.
  destruct (getCredoConfigFilePath fuel documentUri None) as [[resolved tr]|] eqn:Hrun.
  - rewrite (getCommandArguments_layout _ _ _ _ Hrun).
    cbn [fmap option_fmap option_map prod_map fst snd id].
    unfold Spec.commandLine, Spec.optionalFlags. now rewrite <- !app_assoc.
  - unfold getCommandArguments. now rewrite Hrun.
Qed.

(** X14. With a search-path override and no [PATH] in the process
    environment, the [PATH] of the returned environment is the text
    [undefined], the path-list delimiter and the override. *)
Theorem environment_path_unset (override : string) :
  conf_executePath = Some override ->
  override <> "" ->
  process_env !! "PATH" = None ->
  getCommandEnvironment !! "PATH"
    = Some (Js.cat "undefined" (Js.cat delimiter override)).
Proof.
  intros Hconf Hne Hunset. unfold getCommandEnvironment.
  rewrite Hconf, (JsFacts.truthy_Some _ Hne), Hunset.
  now rewrite lookup_insert_eq.
Qed.

(** X15. The returned environment defines every variable of the process
    environment, and besides them only [PATH], which it always defines
    when an override is configured. *)
Theorem environment_variables :
  dom getCommandEnvironment
    = if Js.truthy conf_executePath
      then {[ "PATH" ]} ∪ dom process_env
      else dom process_env.
Proof.
  unfold getCommandEnvironment.
  destruct (Js.truthy conf_executePath); [apply dom_insert_L | reflexivity].
Qed.

End InvocationFacts.

(** ** [makeZeroBasedIndex] *)

Section IndexFacts.
Import Index.


End IndexFacts.

(** ** [trunc] *)

Section TruncFacts.
Import Trunc.

Lemma white_line_feed : is_white LF = true.
Proof. reflexivity. Qed.

Lemma collapse_no_line_feed (s : text) : forall skipping, ~ In LF (collapse skipping s).
Proof.
  induction s as [|c s IH]; intros skipping; [intros [] |].
  cbn [collapse]. destruct (skipping && is_white c); [apply IH |].
  destruct (N.eqb_spec c LF) as [-> | Hc].
  - intros [Hsp | Hin]; [discriminate | now apply IH in Hin].
  - intros [Heq | Hin]; [now apply Hc | now apply IH in Hin].
Qed.

Lemma collapse_plain (s : text) : ~ In LF s -> collapse false s = s.
Proof.
  induction s as [|c s IH]; intros Hno; [reflexivity |].
  cbn [collapse andb].
  destruct (N.eqb_spec c LF) as [-> | Hc]; [exfalso; apply Hno; now left |].
  f_equal. apply IH. intros Hin. apply Hno. now right.
Qed.

Lemma collapse_skips (ws rest : text) :
  Forall (fun c => is_white c = true) ws ->
  collapse true (ws ++ rest) = collapse true rest.
Proof.
  induction 1 as [|c ws Hc _ IH]; [reflexivity |].
  cbn [app collapse andb]. now rewrite Hc.
Qed.

(** The text built by [reduce] for a tagged template: every placeholder
    is followed by the next string. *)
Lemma reduce_weaves (rest placeholders : list text) :
  forall result i,
    length (drop i placeholders) = length rest ->
    reduce result (S i) rest placeholders
      = result ++ concat (zip_with app (drop i placeholders) rest).
Proof.
  induction rest as [|s rest IH]; intros result i Hlen.
  - cbn [reduce]. destruct (drop i placeholders); [|discriminate].
    cbn. now rewrite app_nil_r.
  - cbn [reduce placeholder].
    destruct (drop i placeholders) as [|p ps] eqn:Hdrop; [discriminate |].
    assert (Hp : placeholders !! i = Some p)
      by (rewrite <- (Nat.add_0_r i), <- lookup_drop, Hdrop; reflexivity).
    rewrite (drop_S _ _ _ Hp) in Hdrop. injection Hdrop as Hps.
    rewrite IH by (rewrite Hps; now injection Hlen).
    rewrite (nth_lookup_Some _ _ _ _ Hp), Hps.
    cbn [zip_with concat]. now rewrite <- !app_assoc.
Qed.

(** X17. The text returned by [trunc] holds no line feed. *)
Theorem trunc_no_line_feed (strings placeholders : list text) (r : text) :
  trunc strings placeholders = Some r -> ~ In LF r.
Proof.
  unfold trunc. destruct strings as [|first rest]; [discriminate |].
  intros [= <-]. apply collapse_no_line_feed.
Qed.

(** X18. For a tagged template (one placeholder between two strings) in
    which neither the strings nor the placeholders hold a line feed, [trunc]
    returns the strings with the placeholders filled in, unchanged. *)
Theorem trunc_plain_text (first : text) (rest placeholders : list text) :
  length placeholders = length rest ->
  ~ In LF first ->
  Forall (fun s => ~ In LF s) rest ->
  Forall (fun p => ~ In LF p) placeholders ->
  trunc (first :: rest) placeholders
    = Some (first ++ concat (zip_with app placeholders rest)).
Proof.
  intros Hlen Hfirst Hrest Hplaceholders. unfold trunc.
  rewrite (reduce_weaves rest placeholders first 0) by exact Hlen.
  cbn [drop]. f_equal. apply collapse_plain.
  intros [Hin | Hin]%in_app_or; [now apply Hfirst |].
  revert rest Hlen Hrest Hin.
  induction Hplaceholders as [|p ps Hp _ IH]; intros [|s rest] Hlen Hrest Hin;
    try discriminate; [exact Hin |].
  cbn [zip_with concat] in Hin. inversion Hrest as [|? ? Hs Hrest']; subst.
  apply in_app_or in Hin as [Hin | Hin].
  - apply in_app_or in Hin as [Hin | Hin]; [now apply Hp | now apply Hs].
  - apply (IH rest); [now injection Hlen | exact Hrest' | exact Hin].
Qed.

(** X19. In a template without placeholders, a line feed together with
    the white space after it (the indentation of the next line, or further
    empty lines) is replaced by a single space. *)
Theorem trunc_joins_lines (before indent after : text) :
  ~ In LF before ->
  Forall (fun c => is_white c = true) indent ->
  ~ In LF after ->
  (forall c, head after = Some c -> is_white c = false) ->
  trunc [before ++ LF :: indent ++ after] []
    = Some (before ++ SPACE :: after).
Proof.
  intros Hbefore Hindent Hafter Hhead. unfold trunc. cbn [reduce]. f_equal.
  induction before as [|c before IH].
  - cbn [app collapse andb]. rewrite N.eqb_refl. f_equal.
    rewrite (collapse_skips _ _ Hindent).
    destruct after as [|c after]; [reflexivity |].
    cbn [collapse]. rewrite (Hhead c eq_refl). cbn [andb].
    destruct (N.eqb_spec c LF) as [-> | Hc]; [exfalso; apply Hafter; now left |].
    f_equal. apply collapse_plain. intros Hin. apply Hafter. now right.
  - cbn [app collapse andb].
    destruct (N.eqb_spec c LF) as [-> | Hc]; [exfalso; apply Hbefore; now left |].
    f_equal. apply IH. intros Hin. apply Hbefore. now right.
Qed.

End TruncFacts.

(** ** Further runs on concrete surroundings *)

Module MoreRuns.
Import Sample Fixture.

Lemma root_is_fixed (i : nat) : Nat.iter i (@dirname posix) "/" = "/".
Proof. apply (@iter_fixed posix). reflexivity. Qed.

Lemma findUp_returns_nearest_witness :
  exists j,
    "/proj/lib" = Nat.iter j (@dirname posix) "/proj/lib/app"
    /\ @fs_exists umbrella (@join posix ["/proj/lib"; ".credo.exs"]) = true
    /\ (forall i, i < j ->
          @fs_exists umbrella
            (@join posix [Nat.iter i (@dirname posix) "/proj/lib/app"; ".credo.exs"])
            = false
          /\ Some (Nat.iter i (@dirname posix) "/proj/lib/app") <> Some "/proj")
    /\ [EvExists "/proj/lib/app/.credo.exs"; EvExists "/proj/lib/.credo.exs"]
         = @probes posix ".credo.exs" "/proj/lib/app" (S j).
Proof.
  apply (@findUp_returns_nearest posix umbrella 3 ".credo.exs" "/proj/lib/app"
           (Some "/proj")).
  reflexivity.
Defined.

Lemma findUp_absence_only_at_stop_witness :
  exists j,
    Some "/proj" = Some (Nat.iter j (@dirname posix) "/proj/lib/app")
    /\ forall i, i <= j ->
         @fs_exists bare
           (@join posix [Nat.iter i (@dirname posix) "/proj/lib/app"; "mix.exs"])
           = false.
Proof.
  apply (@findUp_absence_only_at_stop posix bare 3 "mix.exs" "/proj/lib/app"
           (Some "/proj")
           [EvExists "/proj/lib/app/mix.exs"; EvExists "/proj/lib/mix.exs";
            EvExists "/proj/mix.exs"]).
  reflexivity.
Defined.

(** A stop directory written with a trailing separator is never met. *)
Lemma findUp_never_returns_witness :
  @findUp posix bare 1000 "mix.exs" "/proj/lib" (Some "/proj/") = None.
Proof.
  refine (@findUp_never_returns posix bare "mix.exs" "/proj/lib" (Some "/proj/")
            _ _ 1000).
  - intros i. reflexivity.
  - intros [|[|i]]; [discriminate | discriminate |].
    replace (S (S i)) with (i + 2) by lia.
    rewrite Nat.iter_add. change (Nat.iter 2 (@dirname posix) "/proj/lib") with "/".
    rewrite root_is_fixed. discriminate.
Defined.

Lemma findUp_finds_first_hit_witness :
  result (@findUp posix umbrella 7 "mix.exs" "/proj/lib/app" None) = Some (Some "/proj").
Proof.
  apply (@findUp_finds_first_hit posix umbrella "mix.exs" "/proj/lib/app" None 2 7).
  - lia.
  - reflexivity.
  - intros [|[|i]] Hi; [split; [reflexivity | discriminate] ..| lia].
Defined.

Lemma no_workspace_no_search_witness :
  @inMixProject posix atRoot 0 rootDocument = Some (false, [EvWorkspace rootDocument])
  /\ @getProjectFolder posix atRoot 0 rootDocument
       = Some ("/", [EvWorkspace rootDocument]).
Proof.
  apply (@no_workspace_no_search posix atRoot 0 rootDocument). reflexivity.
Defined.

Lemma inMixProject_iff_marker_on_the_way_witness :
  exists b tr,
    @inMixProject posix umbrella 3 document = Some (b, tr)
    /\ (b = true <->
        exists j, j <= 2
          /\ @fs_exists umbrella
               (@join posix
                  [Nat.iter j (@dirname posix) (@dirname posix (fsPath document));
                   "mix.exs"]) = true).
Proof.
  apply (@inMixProject_iff_marker_on_the_way posix umbrella PosixFacts.posix_laws
           document {| uri := fileUri "/proj" |} 2); reflexivity.
Defined.

Lemma getProjectFolder_nearest_or_workspace_witness :
  result (@getProjectFolder posix umbrella 3 document) = Some "/proj/lib".
Proof.
  destruct (@getProjectFolder_nearest_or_workspace posix umbrella
              PosixFacts.posix_laws document {| uri := fileUri "/proj" |} 2
              eq_refl eq_refl) as (folder & tr & Hrun & _ & Hnearest).
  rewrite Hrun. cbn [result fmap option_fmap option_map fst]. do 2 f_equal.
  destruct (Hnearest 1 ltac:(lia) eq_refl) as (j0 & Hj0 & -> & Hhit & _).
  destruct j0 as [|[|j0]]; [| reflexivity | lia].
  vm_compute in Hhit. discriminate Hhit.
Defined.

Lemma silent_only_silences_witness :
  without_logs (@getCredoConfigFilePath posix bare 3 (Some document)
                  (Some {| silent := Some true |}))
  = without_logs (@getCredoConfigFilePath posix bare 3 (Some document) None).
Proof.
  apply (@silent_only_silences posix bare PosixFacts.posix_laws).
Defined.

Lemma duplicate_candidates_warning_witness :
  exists tr,
    @getCredoConfigFilePath posix duplicated 3 (Some document) None
      = Some (Some ".credo.exs", tr)
    /\ List.filter is_log tr
         = [EvLog Warning
              "Found multiple files (/proj/.credo.exs, /proj/config/.credo.exs). I will use /proj/.credo.exs"].
Proof.
  assert (Hinside : @inside_workspace posix duplicated document 2) by reflexivity.
  destruct (@duplicate_candidates_warning posix duplicated PosixFacts.posix_laws
              document 2 None eq_refl Hinside)
    as (folder & r & tr & Hfolder & Hrun & Hboth & _).
  vm_compute in Hfolder. injection Hfolder as <-.
  destruct (Hboth eq_refl eq_refl) as [-> Hlogs].
  exists tr. split; [exact Hrun | exact Hlogs].
Defined.

Lemma one_workspace_lookup_witness :
  List.filter is_lookup
    [EvWorkspace document; EvExists "/proj/lib/app/.credo.exs";
     EvExists "/proj/lib/.credo.exs"; EvExists "/proj/.credo.exs";
     EvExists "/proj/.credo.exs"; EvExists "/proj/config/.credo.exs"]
  = [EvWorkspace document].
Proof.
  apply (@one_workspace_lookup posix project PosixFacts.posix_laws 3
           (Some document) None (Some "config/.credo.exs")).
  reflexivity.
Defined.

Lemma existence_checks_bounded_witness :
  exists r tr,
    @getCredoConfigFilePath posix project 3 (Some document) None = Some (r, tr)
    /\ length (List.filter is_probe tr) <= 2 + 4.
Proof.
  apply (@existence_checks_bounded posix project PosixFacts.posix_laws document 2 None).
  reflexivity.
Defined.

Lemma default_file_on_the_way_is_found_witness :
  exists file tr,
    @getCredoConfigFilePath posix umbrella 3 (Some document) None
      = Some (Some file, tr).
Proof.
  apply (@default_file_on_the_way_is_found posix umbrella PosixFacts.posix_laws
           document {| uri := fileUri "/proj" |} 2 1 None); try reflexivity. lia.
Defined.

Lemma environment_path_unset_witness :
  @getCommandEnvironment posix withoutPath !! "PATH" = Some "undefined:/opt/elixir/bin".
Proof.
  apply (@environment_path_unset posix withoutPath "/opt/elixir/bin");
    [reflexivity | discriminate | vm_compute; reflexivity].
Defined.


Lemma trunc_no_line_feed_witness :
  Trunc.trunc [[97; 10; 32; 32; 98]%N] [] = Some [97; 32; 98]%N
  /\ ~ In Trunc.LF [97; 32; 98]%N.
Proof.
  split; [reflexivity |].
  apply (trunc_no_line_feed [[97; 10; 32; 32; 98]%N] []). reflexivity.
Defined.

Lemma trunc_plain_text_witness :
  Trunc.trunc [[97]; [98]; [99]]%N [[49]; [50]]%N = Some [97; 49; 98; 50; 99]%N.
Proof.
  apply (trunc_plain_text [97]%N [[98]; [99]]%N [[49]; [50]]%N).
  - reflexivity.
  - intros [|[]]; discriminate.
  - repeat constructor; intros [|[]]; discriminate.
  - repeat constructor; intros [|[]]; discriminate.
Defined.

Lemma trunc_joins_lines_witness :
  Trunc.trunc [[97; 10; 32; 9; 10; 32; 98]%N] [] = Some [97; 32; 98]%N.
Proof.
  apply (trunc_joins_lines [97]%N [32; 9; 10; 32]%N [98]%N).
  - intros [|[]]; discriminate.
  - repeat constructor.
  - intros [|[]]; discriminate.
  - intros c [= <-]. reflexivity.
Defined.

End MoreRuns.
